(** * Oppia learner view controllers (core/controllers/reader.py)

    A shallow embedding of the request handlers of the exploration player.
    Every handler is a computation in a state-and-exception monad that
    threads the world of the external services, the handler's [self.values]
    dictionary and the chronological trace of the calls the handler makes.
    The services of the domain layer are not part of this module: they are
    reached through one oracle, indexed by the dotted name the source uses. *)

From stdpp Require Import gmap strings list fin_maps.
From Stdlib Require Import ZArith.

Local Set Warnings "-register-all".
Local Open Scope string_scope.
Local Open Scope list_scope.

(** ** Python values

    JSON-like data (request payloads, response dictionaries) and domain
    objects with attributes. Dictionaries are keyed by strings, which is
    what JSON objects and the dictionaries built in this module use. *)
Inductive pyval :=
  | PNone
  | PBool (b : bool)
  | PInt (z : Z)
  | PStr (s : string)
  | PList (l : list pyval)
  | PDict (d : gmap string pyval)
  | PObj (attrs : gmap string pyval).

(** Exceptions. [Exception_] is the bare [Exception] class that
    [_get_exploration_player_data] raises; [ServiceError] stands for any
    exception class of the service layer. *)
Inductive exn :=
  | PageNotFoundException (cause : option exn)
  | Exception_
  | TypeError
  | ValueError
  | KeyError
  | IndexError
  | AttributeError
  | ServiceError (name : string).

Definition is_page_not_found (e : exn) : bool :=
  match e with PageNotFoundException _ => true | _ => false end.

(** What a handler does to the outside, in order. *)
Inductive event :=
  | ECall (f : string) (args : list pyval) (res : exn + pyval)
  | ELogError (msg : string)
  | ERenderJson (body : pyval)
  | ERenderTemplate (path : string) (iframe_restriction : option pyval)
      (vals : gmap string pyval)
  | ERedirect (url : string).

Definition is_call_to (name : string) (ev : event) : bool :=
  match ev with ECall f _ _ => String.eqb f name | _ => false end.

Definition call_raised (ev : event) : option (string * exn) :=
  match ev with ECall f _ (inl e) => Some (f, e) | _ => None end.

(** The request as the base handler exposes it: [self.request],
    [self.payload], [self.user_id] and [self.user]. *)
Record request := {
  uri : string;
  params : gmap string string;
  payload : gmap string pyval;
  user_id : option string;
  user : pyval;
}.

(** The environment the module runs in: the service layer behind one
    oracle over its own state [W], the two library functions whose result
    decides control flow, and the constants of feconf and constants. *)
Class Env := {
  W : Type;
  oracle : string → list pyval → W → (exn + pyval) * W;
  json_loads : string → exn + pyval;
  py_int : string → option Z;
  ENABLE_NEW_STATS_FRAMEWORK : bool;
  EXPLORATION_URL_EMBED_PREFIX : string;
  NAV_MODE_EXPLORE : pyval;
  PLAY_TYPE_NORMAL : pyval;
  ACTIVITY_TYPE_EXPLORATION : string;
  ACTIVITY_TYPE_COLLECTION : string;
}.

Record hstate `{E : Env} := HState {
  world : W;
  values : gmap string pyval;
  trace : list event;
}.
Arguments HState {E} _ _ _.

Definition MAX_SYSTEM_RECOMMENDATIONS : nat := 4.

(** ** Pure Python operations *)

Definition py_truthy (v : pyval) : bool :=
  match v with
  | PNone => false
  | PBool b => b
  | PInt z => negb (Z.eqb z 0)
  | PStr s => negb (String.eqb s EmptyString)
  | PList l => match l with [] => false | _ => true end
  | PDict d => negb (bool_decide (d = ∅))
  | PObj _ => true
  end.

Definition py_hashable (v : pyval) : bool :=
  match v with PList _ | PDict _ => false | _ => true end.

Definition opt_str (o : option string) : pyval :=
  match o with Some s => PStr s | None => PNone end.

(** [s1 in s2] on strings. *)
Definition str_contains (s1 s2 : string) : bool :=
  match String.index 0 s1 s2 with Some _ => true | None => false end.

Definition str_of (v : pyval) : list string :=
  match v with PStr s => [s] | _ => [] end.

(** The characters of a string, as iteration yields them. *)
Fixpoint chars_of (s : string) : list string :=
  match s with
  | EmptyString => []
  | String c s' => String c EmptyString :: chars_of s'
  end.

(** The strings among the members of [set(v)], or the [TypeError] that
    [set(v)] raises: on a value that is not iterable, or on an unhashable
    member. Only the string members matter to this module, which subtracts
    [set(v)] from sets of exploration ids. *)
Definition py_set_strs (v : pyval) : exn + gset string :=
  match v with
  | PList l =>
      if forallb py_hashable l then inr (list_to_set (l ≫= str_of))
      else inl TypeError
  | PDict d => inr (dom d)
  | PStr s => inr (list_to_set (chars_of s))
  | _ => inl TypeError
  end.

(** [a + b] where [b] is a list: only a list can be concatenated to it. *)
Definition py_add_list (a : pyval) (b : list pyval) : exn + pyval :=
  match a with
  | PList l => inr (PList (l ++ b))
  | _ => inl TypeError
  end.

(** Iteration, as [enumerate] and [for] see a value. *)
Definition py_iter (v : pyval) : exn + list pyval :=
  match v with
  | PList l => inr l
  | PDict d => inr (PStr <$> (map_to_list d).*1)
  | PStr s => inr (PStr <$> chars_of s)
  | _ => inl TypeError
  end.

(** [c[k]] *)
Definition py_getitem (c k : pyval) : exn + pyval :=
  match c with
  | PDict d =>
      match k with
      | PStr s => match d !! s with Some v => inr v | None => inl KeyError end
      | PList _ | PDict _ => inl TypeError
      | _ => inl KeyError
      end
  | PList l =>
      match k with
      | PInt z =>
          let n := Z.of_nat (length l) in
          let i := if (z <? 0)%Z then (n + z)%Z else z in
          if ((0 <=? i) && (i <? n))%Z then
            match l !! Z.to_nat i with Some v => inr v | None => inl IndexError end
          else inl IndexError
      | _ => inl TypeError
      end
  | _ => inl TypeError
  end.

(** [c[k] = v] on a local value; the updated container is returned. *)
Definition py_setitem (c : pyval) (k : string) (v : pyval) : exn + pyval :=
  match c with
  | PDict d => inr (PDict (<[k := v]> d))
  | _ => inl TypeError
  end.

(** [o.name] *)
Definition py_getattr (o : pyval) (name : string) : exn + pyval :=
  match o with
  | PObj attrs =>
      match attrs !! name with Some v => inr v | None => inl AttributeError end
  | _ => inl AttributeError
  end.

(** A list of exploration ids as the services return it: a list of
    strings. Any other value is outside what the services of this module
    return and is rejected. *)
Definition as_str_list (v : pyval) : exn + list string :=
  match v with
  | PList l =>
      if forallb (λ x, match x with PStr _ => true | _ => false end) l
      then inr (l ≫= str_of) else inl TypeError
  | _ => inl TypeError
  end.

(** ** The handler monad *)

Section Reader.
Context `{E : Env}.

Definition M (A : Type) : Type := hstate → (exn + A) * hstate.

Definition M_ret {A} (a : A) : M A := λ s, (inr a, s).

Definition M_bind {A B} (f : A → M B) (m : M A) : M B :=
  λ s, match m s with
       | (inr a, s') => f a s'
       | (inl e, s') => (inl e, s')
       end.

#[global] Instance M_mret : MRet M := @M_ret.
#[global] Instance M_mbind : MBind M := @M_bind.

Definition raise {A} (e : exn) : M A := λ s, (inl e, s).

(** [try: m except Exception as e: h e] *)
Definition try_except {A} (m : M A) (h : exn → M A) : M A :=
  λ s, match m s with
       | (inr a, s') => (inr a, s')
       | (inl e, s') => h e s'
       end.

Definition lift {A} (r : exn + A) : M A := λ s, (r, s).

Definition emit (ev : event) : M unit :=
  λ s, (inr (), HState (world s) (values s) (trace s ++ [ev])).

(** A call into the service layer: the oracle answers, the world moves and
    the call is traced together with its outcome. *)
Definition call (f : string) (args : list pyval) : M pyval :=
  λ s, let '(r, w') := oracle f args (world s) in
       (r, HState w' (values s) (trace s ++ [ECall f args r])).

(** A method call on a domain object; the receiver is the first argument. *)
Definition call_method (obj : pyval) (meth : string) (args : list pyval) : M pyval :=
  call meth (obj :: args).

Definition get_values : M (gmap string pyval) := λ s, (inr (values s), s).

(** [self.values.update(d)] *)
Definition values_update (d : gmap string pyval) : M unit :=
  λ s, (inr (), HState (world s) (d ∪ values s) (trace s)).

(** [self.values[k] = v] *)
Definition values_set (k : string) (v : pyval) : M unit :=
  λ s, (inr (), HState (world s) (<[k := v]> (values s)) (trace s)).

Definition render_json (body : pyval) : M unit := emit (ERenderJson body).

Definition render_template (path : string) (iframe_restriction : option pyval) : M unit :=
  vals ← get_values; emit (ERenderTemplate path iframe_restriction vals).

Definition redirect (url : string) : M unit := emit (ERedirect url).

Definition logging_error (msg : string) : M unit := emit (ELogError msg).

Fixpoint fold_m {A B} (body : B → A → M B) (acc : B) (l : list A) : M B :=
  match l with
  | [] => mret acc
  | x :: l' => acc' ← body acc x; fold_m body acc' l'
  end.

Section Handlers.
Context (rq : request).

(** [self.request.get(name)]: the empty string when the parameter is absent. *)
Definition request_get (name : string) : string := default EmptyString (params rq !! name).

(** [self.payload.get(name)] and [self.payload.get(name, dflt)] *)
Definition payload_get (name : string) : pyval := default PNone (payload rq !! name).
Definition payload_get_default (name : string) (dflt : pyval) : pyval :=
  default dflt (payload rq !! name).

Definition self_user_id : pyval := opt_str (user_id rq).

(** [int(version_str) if version_str else None] *)
Definition parse_version (version_str : string) : M pyval :=
  if py_truthy (PStr version_str) then
    match py_int version_str with
    | Some z => mret (PInt z)
    | None => raise ValueError
    end
  else mret PNone.

Definition is_none (v : pyval) : bool :=
  match v with PNone => true | _ => false end.

Definition getattr (o : pyval) (name : string) : M pyval := lift (py_getattr o name).
Definition getitem (c k : pyval) : M pyval := lift (py_getitem c k).

(** [a, b = v] *)
Definition unpack2 (v : pyval) : M (pyval * pyval) :=
  match py_iter v with
  | inr [a; b] => mret (a, b)
  | inr _ => raise ValueError
  | inl e => raise e
  end.

(** A dictionary key of this model is a string: the keys used below are
    state names. An unhashable key is Python's [TypeError]; other keys are
    outside the model and rejected the same way. *)
Definition dict_key (k : pyval) : M string :=
  match k with
  | PStr s => mret s
  | _ => raise TypeError
  end.

(** [list(set(xs) - set(ys))]: [xs] comes from a service and is a list of
    exploration ids, [ys] is any value. The order of the result is that of
    the set's enumeration. *)
Definition set_difference (xs ys : pyval) : M pyval :=
  a ← lift (as_str_list xs);
  b ← lift (py_set_strs ys);
  mret (PList (PStr <$> elements (list_to_set a ∖ b : gset string))).

(** [a + b]: between a decoded JSON value and a list of ids this is list
    concatenation, and a [TypeError] if either side is not a list. *)
Definition py_add (a b : pyval) : M pyval :=
  match b with
  | PList l => lift (py_add_list a l)
  | _ => raise TypeError
  end.

Definition py_len (v : pyval) : M nat :=
  match v with
  | PList l => mret (length l)
  | PDict d => mret (size d)
  | PStr s => mret (String.length s)
  | _ => raise TypeError
  end.

(** *** Module-level helper *)

Definition _get_exploration_player_data
    (exploration_id : string) (version : pyval) (collection_id : string)
    (can_edit : pyval) : M (gmap string pyval) :=
  exploration ← try_except
    (call "exp_services.get_exploration_by_id" [PStr exploration_id; version])
    (λ _, raise Exception_);
  collection_title ←
    (if py_truthy (PStr collection_id) then
       try_except
         (collection ← call "collection_services.get_collection_by_id"
                          [PStr collection_id];
          getattr collection "title")
         (λ _, raise Exception_)
     else mret PNone);
  version ← getattr exploration "version";
  interaction_ids ← call_method exploration "get_interaction_ids" [];
  dependency_ids ←
    call "interaction_registry.Registry.get_deduplicated_dependency_ids"
      [interaction_ids];
  deps ← call "dependency_registry.Registry.get_deps_html_and_angular_modules"
           [dependency_ids];
  hm ← unpack2 deps;
  let '(dependencies_html, additional_angular_modules) := hm in
  interaction_templates ←
    call "interaction_registry.Registry.get_interaction_html" [interaction_ids];
  specs ← call "interaction_registry.Registry.get_all_specs" [];
  twitter ← call "DEFAULT_TWITTER_SHARE_MESSAGE_PLAYER.value" [];
  deps_markup ← call "jinja2.utils.Markup" [dependencies_html];
  title ← getattr exploration "title";
  templates_markup ← call "jinja2.utils.Markup" [interaction_templates];
  is_private ← call "rights_manager.is_exploration_private" [PStr exploration_id];
  meta_name ← getattr exploration "title";
  objective ← getattr exploration "objective";
  meta_description ← call "utils.capitalize_string" [objective];
  mret (list_to_map [
    ("INTERACTION_SPECS", specs);
    ("DEFAULT_TWITTER_SHARE_MESSAGE_PLAYER", twitter);
    ("additional_angular_modules", additional_angular_modules);
    ("can_edit", can_edit);
    ("dependencies_html", deps_markup);
    ("exploration_title", title);
    ("exploration_version", version);
    ("collection_id", PStr collection_id);
    ("collection_title", collection_title);
    ("interaction_templates", templates_markup);
    ("is_private", is_private);
    ("meta_name", meta_name);
    ("meta_description", meta_description);
    ("nav_mode", NAV_MODE_EXPLORE)]).

(** *** Pages *)

Definition ExplorationPageEmbed_get (exploration_id : string) : M unit :=
  let version_str := request_get "v" in
  version ← parse_version version_str;
  exploration_rights ←
    call "rights_manager.get_exploration_rights" [PStr exploration_id; PBool false];
  let collection_id := request_get "collection_id" in
  can_edit ← call "rights_manager.check_can_edit_activity"
               [user rq; exploration_rights];
  (if str_contains EXPLORATION_URL_EMBED_PREFIX (uri rq)
      || py_truthy (PStr (request_get "iframed"))
   then values_set "iframed" (PBool true) else mret ());;
  exploration_data_values ← try_except
    (_get_exploration_player_data exploration_id version collection_id can_edit)
    (λ _, raise (PageNotFoundException None));
  values_update exploration_data_values;;
  values_set "iframed" (PBool true);;
  render_template "pages/exploration_player/exploration_player.html" (Some PNone).

Definition ExplorationPage_get (exploration_id : string) : M unit :=
  let version_str := request_get "v" in
  version ← parse_version version_str;
  exploration_rights ←
    call "rights_manager.get_exploration_rights" [PStr exploration_id; PBool false];
  if py_truthy (PStr (request_get "iframed")) then
    let redirect_url := "/embed/exploration/" +:+ exploration_id in
    let redirect_url :=
      if py_truthy (PStr version_str) then redirect_url +:+ "?v=" +:+ version_str
      else redirect_url in
    redirect redirect_url
  else
    let collection_id := request_get "collection_id" in
    can_edit ← call "rights_manager.check_can_edit_activity"
                 [user rq; exploration_rights];
    exploration_data_values ← try_except
      (_get_exploration_player_data exploration_id version collection_id can_edit)
      (λ _, raise (PageNotFoundException None));
    values_update exploration_data_values;;
    values_set "iframed" (PBool false);;
    render_template "pages/exploration_player/exploration_player.html" None.

(** *** Initial data *)

(** The dictionary stored for one state with a classifier. *)
Definition classifier_entry (algorithm_id classifier_data data_schema_version : pyval)
    : pyval :=
  PDict (list_to_map [
    ("algorithm_id", algorithm_id);
    ("classifier_data", classifier_data);
    ("data_schema_version", data_schema_version)]).

(** One iteration of the loop over [enumerate(exploration.states)]. *)
Definition classifier_step (classifier_training_jobs : pyval)
    (state_classifier_mapping : gmap string pyval) (it : nat * pyval)
    : M (gmap string pyval) :=
  let '(index, state_name) := it in
  let idx := PInt (Z.of_nat index) in
  job ← getitem classifier_training_jobs idx;
  if negb (is_none job) then
    job ← getitem classifier_training_jobs idx;
    classifier_data ← getattr job "classifier_data";
    job ← getitem classifier_training_jobs idx;
    algorithm_id ← getattr job "algorithm_id";
    job ← getitem classifier_training_jobs idx;
    data_schema_version ← getattr job "data_schema_version";
    k ← dict_key state_name;
    mret (<[k := classifier_entry algorithm_id classifier_data data_schema_version]>
            state_classifier_mapping)
  else mret state_classifier_mapping.

Definition ExplorationHandler_get (exploration_id : string) : M unit :=
  let version := request_get "v" in
  version ← parse_version version;
  exploration ← try_except
    (call "exp_services.get_exploration_by_id" [PStr exploration_id; version])
    (λ e, raise (PageNotFoundException (Some e)));
  exploration_rights ←
    call "rights_manager.get_exploration_rights" [PStr exploration_id; PBool false];
  user_settings ← call "user_services.get_user_settings" [self_user_id];
  preferred_audio_language_code ←
    (if negb (is_none user_settings)
     then getattr user_settings "preferred_audio_language_code"
     else mret PNone);
  exp_version ← getattr exploration "version";
  exp_states ← getattr exploration "states";
  classifier_training_jobs ←
    call "classifier_services.get_classifier_training_jobs"
      [PStr exploration_id; exp_version; exp_states];
  exp_states ← getattr exploration "states";
  state_names ← lift (py_iter exp_states);
  state_classifier_mapping ←
    fold_m (classifier_step classifier_training_jobs) ∅
      (imap (λ i x, (i, x)) state_names);
  can_edit ← call "rights_manager.check_can_edit_activity"
               [user rq; exploration_rights];
  player_dict ← call_method exploration "to_player_dict" [];
  session_id ← call "utils.generate_new_session_id" [];
  exp_version ← getattr exploration "version";
  values_update (list_to_map [
    ("can_edit", can_edit);
    ("exploration", player_dict);
    ("exploration_id", PStr exploration_id);
    ("is_logged_in", PBool (py_truthy self_user_id));
    ("session_id", session_id);
    ("version", exp_version);
    ("preferred_audio_language_code", preferred_audio_language_code);
    ("state_classifier_mapping", PDict state_classifier_mapping)]);;
  vals ← get_values;
  render_json (PDict vals).

(** *** Event tracking *)

Definition AnswerSubmittedEventHandler_post (exploration_id : string) : M unit :=
  let old_state_name := payload_get "old_state_name" in
  let answer := payload_get "answer" in
  let params := payload_get_default "params" (PDict ∅) in
  let version := payload_get "version" in
  let session_id := payload_get "session_id" in
  let client_time_spent_in_secs := payload_get "client_time_spent_in_secs" in
  let answer_group_index := payload_get "answer_group_index" in
  let rule_spec_index := payload_get "rule_spec_index" in
  let classification_categorization := payload_get "classification_categorization" in
  exploration ← call "exp_services.get_exploration_by_id" [PStr exploration_id; version];
  states ← getattr exploration "states";
  old_state ← getitem states old_state_name;
  old_interaction ← getattr old_state "interaction";
  old_interaction_id ← getattr old_interaction "id";
  old_interaction_instance ←
    call "interaction_registry.Registry.get_interaction_by_id" [old_interaction_id];
  normalized_answer ←
    call_method old_interaction_instance "normalize_answer" [answer];
  states ← getattr exploration "states";
  old_state ← getitem states old_state_name;
  interaction ← getattr old_state "interaction";
  interaction_id ← getattr interaction "id";
  call "event_services.AnswerSubmissionEventHandler.record"
    [PStr exploration_id; version; old_state_name; interaction_id;
     answer_group_index; rule_spec_index; classification_categorization;
     session_id; client_time_spent_in_secs; params; normalized_answer];;
  render_json (PDict ∅).

Definition StateHitEventHandler_post (exploration_id : string) : M unit :=
  let new_state_name := payload_get "new_state_name" in
  let exploration_version := payload_get "exploration_version" in
  let session_id := payload_get "session_id" in
  let client_time_spent_in_secs := payload_get "client_time_spent_in_secs" in
  let old_params := payload_get "old_params" in
  let is_first_hit := payload_get "is_first_hit" in
  (if negb (is_none new_state_name) then
     call "event_services.StateHitEventHandler.record"
       [PStr exploration_id; exploration_version; new_state_name;
        session_id; old_params; PLAY_TYPE_NORMAL; is_first_hit];;
     mret ()
   else logging_error "Unexpected StateHit event for the END state.");;
  render_json (PDict ∅).

Definition StateCompleteEventHandler_post (exploration_id : string) : M unit :=
  (if ENABLE_NEW_STATS_FRAMEWORK then
     call "event_services.StateCompleteEventHandler.record"
       [PStr exploration_id; payload_get "exp_version";
        payload_get "state_name"; payload_get "session_id";
        payload_get "time_spent_in_state_secs"];;
     mret ()
   else mret ());;
  render_json (PDict ∅).

(** *** Classification *)

Definition ClassifyHandler_post (unused_exploration_id : string) : M unit :=
  old_state ← call "exp_domain.State.from_dict" [payload_get "old_state"];
  let answer := payload_get "answer" in
  let params := payload_get "params" in
  params ← lift (py_setitem params "answer" answer);
  result ← call "classifier_services.classify" [old_state; answer];
  render_json result.

(** *** Feedback and the remaining events *)

Definition ReaderFeedbackHandler_post (exploration_id : string) : M unit :=
  let state_name := payload_get "state_name" in
  let subject := payload_get_default "subject" (PStr "Feedback from a learner") in
  let feedback := payload_get "feedback" in
  let include_author := payload_get "include_author" in
  call "feedback_services.create_thread"
    [PStr exploration_id; state_name;
     (if py_truthy include_author then self_user_id else PNone);
     subject; feedback];;
  vals ← get_values;
  render_json (PDict vals).

Definition ExplorationStartEventHandler_post (exploration_id : string) : M unit :=
  call "event_services.StartExplorationEventHandler.record"
    [PStr exploration_id; payload_get "version"; payload_get "state_name";
     payload_get "session_id"; payload_get "params"; PLAY_TYPE_NORMAL];;
  render_json (PDict ∅).

Definition ExplorationActualStartEventHandler_post (exploration_id : string) : M unit :=
  (if ENABLE_NEW_STATS_FRAMEWORK then
     call "event_services.ExplorationActualStartEventHandler.record"
       [PStr exploration_id; payload_get "exploration_version";
        payload_get "state_name"; payload_get "session_id"];;
     mret ()
   else mret ());;
  render_json (PDict ∅).

Definition SolutionHitEventHandler_post (exploration_id : string) : M unit :=
  (if ENABLE_NEW_STATS_FRAMEWORK then
     call "event_services.SolutionHitEventHandler.record"
       [PStr exploration_id; payload_get "exploration_version";
        payload_get "state_name"; payload_get "session_id";
        payload_get "time_spent_in_state_secs"];;
     mret ()
   else mret ());;
  render_json (PDict ∅).

Definition ExplorationCompleteEventHandler_post (exploration_id : string) : M unit :=
  let collection_id := payload_get "collection_id" in
  let user_id := self_user_id in
  call "event_services.CompleteExplorationEventHandler.record"
    [PStr exploration_id; payload_get "version"; payload_get "state_name";
     payload_get "session_id"; payload_get "client_time_spent_in_secs";
     payload_get "params"; PLAY_TYPE_NORMAL];;
  (if py_truthy user_id then
     call "learner_progress_services.mark_exploration_as_completed"
       [user_id; PStr exploration_id];;
     mret ()
   else mret ());;
  (if py_truthy user_id && py_truthy collection_id then
     call "collection_services.record_played_exploration_in_collection_context"
       [user_id; collection_id; PStr exploration_id];;
     collections_left_to_complete ←
       call "collection_services.get_next_exploration_ids_to_complete_by_user"
         [user_id; collection_id];
     (if negb (py_truthy collections_left_to_complete) then
        call "learner_progress_services.mark_collection_as_completed"
          [user_id; collection_id]
      else
        call "learner_progress_services.mark_collection_as_incomplete"
          [user_id; collection_id]);;
     mret ()
   else mret ());;
  vals ← get_values;
  render_json (PDict vals).

Definition ExplorationMaybeLeaveHandler_post (exploration_id : string) : M unit :=
  let version := payload_get "version" in
  let state_name := payload_get "state_name" in
  let user_id := self_user_id in
  let collection_id := payload_get "collection_id" in
  (if py_truthy user_id then
     call "learner_progress_services.mark_exploration_as_incomplete"
       [user_id; PStr exploration_id; state_name; version];;
     mret ()
   else mret ());;
  (if py_truthy user_id && py_truthy collection_id then
     call "learner_progress_services.mark_collection_as_incomplete"
       [user_id; collection_id];;
     mret ()
   else mret ());;
  call "event_services.MaybeLeaveExplorationEventHandler.record"
    [PStr exploration_id; version; state_name; payload_get "session_id";
     payload_get "client_time_spent_in_secs"; payload_get "params";
     PLAY_TYPE_NORMAL];;
  vals ← get_values;
  render_json (PDict vals).

(** *** Learner dashboard, ratings, recommendations, flagging *)

Definition LearnerIncompleteActivityHandler_delete
    (activity_type activity_id : string) : M unit :=
  (if String.eqb activity_type ACTIVITY_TYPE_EXPLORATION then
     call "learner_progress_services.remove_exp_from_incomplete_list"
       [self_user_id; PStr activity_id];;
     mret ()
   else if String.eqb activity_type ACTIVITY_TYPE_COLLECTION then
     call "learner_progress_services.remove_collection_from_incomplete_list"
       [self_user_id; PStr activity_id];;
     mret ()
   else mret ());;
  vals ← get_values;
  render_json (PDict vals).

Definition RatingHandler_get (exploration_id : string) : M unit :=
  overall_ratings ←
    call "rating_services.get_overall_ratings_for_exploration" [PStr exploration_id];
  user_rating ←
    (if py_truthy self_user_id then
       call "rating_services.get_user_specific_rating_for_exploration"
         [self_user_id; PStr exploration_id]
     else mret PNone);
  values_update (list_to_map [
    ("overall_ratings", overall_ratings);
    ("user_rating", user_rating)]);;
  vals ← get_values;
  render_json (PDict vals).

Definition RatingHandler_put (exploration_id : string) : M unit :=
  let user_rating := payload_get "user_rating" in
  call "rating_services.assign_rating_to_exploration"
    [self_user_id; PStr exploration_id; user_rating];;
  render_json (PDict ∅).

(** The automatically recommended ids, once the author's are decoded. *)
Definition auto_recommended (exploration_id collection_id
    include_system_recommendations : string)
    (author_recommended_exp_ids : pyval) : M pyval :=
  if py_truthy self_user_id && py_truthy (PStr collection_id) then
    next_exp_ids_in_collection ←
      call "collection_services.get_next_exploration_ids_to_complete_by_user"
        [self_user_id; PStr collection_id];
    set_difference next_exp_ids_in_collection author_recommended_exp_ids
  else
    next_exp_ids_in_collection ←
      (if py_truthy (PStr collection_id) then
         collection ← call "collection_services.get_collection_by_id"
                          [PStr collection_id];
         call_method collection "get_next_exploration_ids_in_sequence"
           [PStr exploration_id]
       else mret (PList []));
    if py_truthy next_exp_ids_in_collection then
      set_difference next_exp_ids_in_collection author_recommended_exp_ids
    else if py_truthy (PStr include_system_recommendations) then
      system_chosen_exp_ids ←
        call "recommendations_services.get_exploration_recommendations"
          [PStr exploration_id];
      filtered_exp_ids ←
        set_difference system_chosen_exp_ids author_recommended_exp_ids;
      n ← py_len filtered_exp_ids;
      call "random.sample"
        [filtered_exp_ids; PInt (Z.of_nat (MAX_SYSTEM_RECOMMENDATIONS `min` n))]
    else mret (PList []).

Definition RecommendationsHandler_get (exploration_id : string) : M unit :=
  let collection_id := request_get "collection_id" in
  let include_system_recommendations :=
    request_get "include_system_recommendations" in
  author_recommended_exp_ids ← try_except
    (lift (json_loads (request_get "stringified_author_recommended_ids")))
    (λ _, raise (PageNotFoundException None));
  auto_recommended_exp_ids ←
    auto_recommended exploration_id collection_id
      include_system_recommendations author_recommended_exp_ids;
  ids ← py_add author_recommended_exp_ids auto_recommended_exp_ids;
  summaries ←
    call "summary_services.get_displayable_exp_summary_dicts_matching_ids" [ids];
  values_update (list_to_map [("summaries", summaries)]);;
  vals ← get_values;
  render_json (PDict vals).

Definition FlagExplorationHandler_post (exploration_id : string) : M unit :=
  call "moderator_services.enqueue_flag_exploration_email_task"
    [PStr exploration_id; payload_get "report_text"; self_user_id];;
  vals ← get_values;
  render_json (PDict vals).

(** *** Routing and authorization

    Every handler method carries one decorator of [acl_decorators]. *)

Inductive permission :=
  | can_play_exploration
  | can_access_learner_dashboard
  | can_rate_exploration
  | can_flag_exploration.

Definition permission_name (p : permission) : string :=
  match p with
  | can_play_exploration => "acl_decorators.can_play_exploration"
  | can_access_learner_dashboard => "acl_decorators.can_access_learner_dashboard"
  | can_rate_exploration => "acl_decorators.can_rate_exploration"
  | can_flag_exploration => "acl_decorators.can_flag_exploration"
  end.

(** A handler method together with the arguments taken from the URL. *)
Inductive endpoint :=
  | ExplorationPageEmbed_GET (exploration_id : string)
  | ExplorationPage_GET (exploration_id : string)
  | ExplorationHandler_GET (exploration_id : string)
  | AnswerSubmittedEventHandler_POST (exploration_id : string)
  | StateHitEventHandler_POST (exploration_id : string)
  | StateCompleteEventHandler_POST (exploration_id : string)
  | ClassifyHandler_POST (exploration_id : string)
  | ReaderFeedbackHandler_POST (exploration_id : string)
  | ExplorationStartEventHandler_POST (exploration_id : string)
  | ExplorationActualStartEventHandler_POST (exploration_id : string)
  | SolutionHitEventHandler_POST (exploration_id : string)
  | ExplorationCompleteEventHandler_POST (exploration_id : string)
  | ExplorationMaybeLeaveHandler_POST (exploration_id : string)
  | LearnerIncompleteActivityHandler_DELETE (activity_type activity_id : string)
  | RatingHandler_GET (exploration_id : string)
  | RatingHandler_PUT (exploration_id : string)
  | RecommendationsHandler_GET (exploration_id : string)
  | FlagExplorationHandler_POST (exploration_id : string).

(** The method under the decorator. *)
Definition handler_body (ep : endpoint) : M unit :=
  match ep with
  | ExplorationPageEmbed_GET i => ExplorationPageEmbed_get i
  | ExplorationPage_GET i => ExplorationPage_get i
  | ExplorationHandler_GET i => ExplorationHandler_get i
  | AnswerSubmittedEventHandler_POST i => AnswerSubmittedEventHandler_post i
  | StateHitEventHandler_POST i => StateHitEventHandler_post i
  | StateCompleteEventHandler_POST i => StateCompleteEventHandler_post i
  | ClassifyHandler_POST i => ClassifyHandler_post i
  | ReaderFeedbackHandler_POST i => ReaderFeedbackHandler_post i
  | ExplorationStartEventHandler_POST i => ExplorationStartEventHandler_post i
  | ExplorationActualStartEventHandler_POST i =>
      ExplorationActualStartEventHandler_post i
  | SolutionHitEventHandler_POST i => SolutionHitEventHandler_post i
  | ExplorationCompleteEventHandler_POST i => ExplorationCompleteEventHandler_post i
  | ExplorationMaybeLeaveHandler_POST i => ExplorationMaybeLeaveHandler_post i
  | LearnerIncompleteActivityHandler_DELETE t i =>
      LearnerIncompleteActivityHandler_delete t i
  | RatingHandler_GET i => RatingHandler_get i
  | RatingHandler_PUT i => RatingHandler_put i
  | RecommendationsHandler_GET i => RecommendationsHandler_get i
  | FlagExplorationHandler_POST i => FlagExplorationHandler_post i
  end.

(** The decorator written above the method in the source. *)
Definition decorator (ep : endpoint) : permission :=
  match ep with
  | LearnerIncompleteActivityHandler_DELETE _ _ => can_access_learner_dashboard
  | RatingHandler_PUT _ => can_rate_exploration
  | FlagExplorationHandler_POST _ => can_flag_exploration
  | _ => can_play_exploration
  end.

Definition url_args (ep : endpoint) : list pyval :=
  match ep with
  | LearnerIncompleteActivityHandler_DELETE t i => [PStr t; PStr i]
  | ExplorationPageEmbed_GET i | ExplorationPage_GET i | ExplorationHandler_GET i
  | AnswerSubmittedEventHandler_POST i | StateHitEventHandler_POST i
  | StateCompleteEventHandler_POST i | ClassifyHandler_POST i
  | ReaderFeedbackHandler_POST i | ExplorationStartEventHandler_POST i
  | ExplorationActualStartEventHandler_POST i | SolutionHitEventHandler_POST i
  | ExplorationCompleteEventHandler_POST i | ExplorationMaybeLeaveHandler_POST i
  | RatingHandler_GET i | RatingHandler_PUT i | RecommendationsHandler_GET i
  | FlagExplorationHandler_POST i => [PStr i]
  end.

(** Modelled from the spec: the decorators of [acl_decorators], which are
    not part of this module. The spec says that the ACL layer performs the
    authorization check before the handler body runs; the check is a call
    into that layer with the handler's URL arguments, which either returns,
    and the body runs, or raises, and the body does not. *)
Definition acl_decorated (p : permission) (args : list pyval) (body : M unit)
    : M unit :=
  call (permission_name p) args;; body.

(** What the framework invokes for a routed request. *)
Definition dispatch (ep : endpoint) : M unit :=
  acl_decorated (decorator ep) (url_args ep) (handler_body ep).

End Handlers.
End Reader.

Arguments payload_get : simpl never.
Arguments payload_get_default : simpl never.
Arguments request_get : simpl never.
Arguments self_user_id : simpl never.
Arguments py_getattr : simpl never.
Arguments py_getitem : simpl never.
Arguments py_set_strs : simpl never.
Arguments as_str_list : simpl never.
Arguments py_truthy : simpl never.

(** ** Observing a run *)

Section Observations.
Context `{E : Env}.

(** The events a computation adds to the trace it starts from. *)
Definition new_events {A} (m : M A) (s : hstate) : list event :=
  drop (length (trace s)) (trace (m s).2).

Definition result {A} (m : M A) (s : hstate) : exn + A := (m s).1.

(** Service calls made by [_get_exploration_player_data]; in the two page
    handlers all of them sit inside the [try] block. *)
Definition player_data_services : list string := [
  "exp_services.get_exploration_by_id";
  "collection_services.get_collection_by_id";
  "get_interaction_ids";
  "interaction_registry.Registry.get_deduplicated_dependency_ids";
  "dependency_registry.Registry.get_deps_html_and_angular_modules";
  "interaction_registry.Registry.get_interaction_html";
  "interaction_registry.Registry.get_all_specs";
  "DEFAULT_TWITTER_SHARE_MESSAGE_PLAYER.value";
  "jinja2.utils.Markup";
  "rights_manager.is_exploration_private";
  "utils.capitalize_string"].

Definition in_names (f : string) (names : list string) : bool :=
  existsb (String.eqb f) names.

(** The two lookups whose failure means that the exploration or the
    collection does not exist. *)
Definition lookup_services : list string := [
  "exp_services.get_exploration_by_id";
  "collection_services.get_collection_by_id"].

(** Whether handler [ep] calls service [f] inside a [try] block. *)
Definition in_try_block (ep : endpoint) (f : string) : bool :=
  match ep with
  | ExplorationPageEmbed_GET _ | ExplorationPage_GET _ =>
      in_names f player_data_services
  | ExplorationHandler_GET _ =>
      String.eqb f "exp_services.get_exploration_by_id"
  | _ => false
  end.

(** The exception a handler ends with when its call to service [f] raised
    [e]: the [except] clauses of the source, per handler. *)
Definition surfaced (ep : endpoint) (f : string) (e : exn) : exn :=
  match ep with
  | ExplorationPageEmbed_GET _ | ExplorationPage_GET _ =>
      if in_names f player_data_services then PageNotFoundException None else e
  | ExplorationHandler_GET _ =>
      if String.eqb f "exp_services.get_exploration_by_id"
      then PageNotFoundException (Some e) else e
  | _ => e
  end.

(** Every call that raised is the last event of the run, and the run ends
    with an exception related to the raised one by [ok]. *)
Definition raises_last {A} (ok : string → exn → exn → Prop) (m : M A) : Prop :=
  ∀ s, ∃ t, trace (m s).2 = trace s ++ t ∧
    ∀ i ev f e, t !! i = Some ev → call_raised ev = Some (f, e) →
      S i = length t ∧ ∃ e', (m s).1 = inl e' ∧ ok f e e'.

(** The result of a classification, as the docstring of [ClassifyHandler]
    describes it: a dictionary with exactly three keys. *)
Definition is_classification_result (v : pyval) : Prop :=
  ∃ m, v = PDict m ∧
       dom m = {["outcome"; "answer_group_index"; "rule_spec_index"]}.

(** The event service behind each event-tracking endpoint. *)
Definition recorder (ep : endpoint) : option string :=
  match ep with
  | AnswerSubmittedEventHandler_POST _ =>
      Some "event_services.AnswerSubmissionEventHandler.record"
  | StateHitEventHandler_POST _ =>
      Some "event_services.StateHitEventHandler.record"
  | StateCompleteEventHandler_POST _ =>
      Some "event_services.StateCompleteEventHandler.record"
  | ExplorationStartEventHandler_POST _ =>
      Some "event_services.StartExplorationEventHandler.record"
  | ExplorationActualStartEventHandler_POST _ =>
      Some "event_services.ExplorationActualStartEventHandler.record"
  | SolutionHitEventHandler_POST _ =>
      Some "event_services.SolutionHitEventHandler.record"
  | ExplorationCompleteEventHandler_POST _ =>
      Some "event_services.CompleteExplorationEventHandler.record"
  | ExplorationMaybeLeaveHandler_POST _ =>
      Some "event_services.MaybeLeaveExplorationEventHandler.record"
  | _ => None
  end.

(** The payload field that names the state of the event. *)
Definition state_name_field (ep : endpoint) : string :=
  match ep with
  | AnswerSubmittedEventHandler_POST _ => "old_state_name"
  | StateHitEventHandler_POST _ => "new_state_name"
  | _ => "state_name"
  end.

(** The three handlers of the new statistics framework record only when
    [feconf.ENABLE_NEW_STATS_FRAMEWORK] is set. *)
Definition recording_enabled (ep : endpoint) : bool :=
  match ep with
  | StateCompleteEventHandler_POST _
  | ExplorationActualStartEventHandler_POST _
  | SolutionHitEventHandler_POST _ => ENABLE_NEW_STATS_FRAMEWORK
  | _ => true
  end.

Definition call_returned (name : string) (ev : event) : bool :=
  match ev with ECall f _ (inr _) => String.eqb f name | _ => false end.

Definition is_render_json (ev : event) : bool :=
  match ev with ERenderJson _ => true | _ => false end.

(** The run recorded the event and then answered with JSON: a call to the
    event service [name] returned, and the last event is the JSON response. *)
Definition records_then_responds (name : string) (t : list event) : bool :=
  existsb (call_returned name) t &&
  match last t with Some ev => is_render_json ev | None => false end.

(** Unconditional recording, for one endpoint: a request that names its
    state and that the handler completes has recorded the event and then
    answered with JSON. *)
Definition event_always_recorded (ep : endpoint) : Prop :=
  ∀ rq s name,
    recorder ep = Some name →
    is_none (payload_get rq (state_name_field ep)) = false →
    result (handler_body rq ep) s = inr () →
    records_then_responds name (new_events (handler_body rq ep) s) = true.

(** State [index] has a classifier: its training job exists. *)
Definition has_classifier (jobs : pyval) (index : nat) (job : pyval) : Prop :=
  py_getitem jobs (PInt (Z.of_nat index)) = inr job ∧ is_none job = false.

(** [mapping] is the state-classifier mapping of the states named
    [state_names], in iteration order, with training jobs [jobs]: its keys
    are the names of the states that have a classifier, and each is mapped
    to a dictionary with exactly the keys [algorithm_id],
    [classifier_data] and [data_schema_version], holding the attributes of
    that name of its job. *)
Definition classifier_mapping_of (state_names : list string) (jobs : pyval)
    (mapping : gmap string pyval) : Prop :=
  (∀ name, name ∈ dom mapping ↔
     ∃ i job, state_names !! i = Some name ∧ has_classifier jobs i job) ∧
  (∀ i name job, state_names !! i = Some name → has_classifier jobs i job →
     ∃ a c d entry,
       py_getattr job "algorithm_id" = inr a ∧
       py_getattr job "classifier_data" = inr c ∧
       py_getattr job "data_schema_version" = inr d ∧
       mapping !! name = Some (PDict entry) ∧
       entry !! "algorithm_id" = Some a ∧
       entry !! "classifier_data" = Some c ∧
       entry !! "data_schema_version" = Some d ∧
       dom entry
         = {["algorithm_id"; "classifier_data"; "data_schema_version"]}).


(** A handler surfaces a missing exploration or collection as a
    page-not-found error: whenever one of the [lookups] raises during the
    run, the run ends with [PageNotFoundException]. *)
Definition surfaces_not_found (lookups : list string) (h : M unit) : Prop :=
  ∀ s i ev f e,
    new_events h s !! i = Some ev → call_raised ev = Some (f, e) →
    in_names f lookups = true →
    ∃ c, result h s = inl (PageNotFoundException c).

(** An exception of a service other than the lookups reaches the caller
    of the handler unchanged. *)
Definition propagates_unchanged (h : M unit) : Prop :=
  ∀ s i ev f e,
    new_events h s !! i = Some ev → call_raised ev = Some (f, e) →
    in_names f lookup_services = false →
    result h s = inl e.

(** Every event a computation adds satisfies [q], whatever the outcome. *)
Definition events_all {A} (q : event → bool) (m : M A) : Prop :=
  ∀ s, ∃ t, trace (m s).2 = trace s ++ t ∧ Forall (λ ev, q ev = true) t.

(** A response written to the client: JSON, a rendered page or a redirect. *)
Definition is_response (ev : event) : bool :=
  match ev with
  | ERenderJson _ | ERenderTemplate _ _ _ | ERedirect _ => true
  | _ => false
  end.

Definition no_response (ev : event) : bool := negb (is_response ev).

(** The event is no call, or a call to one of [names]. *)
Definition calls_within (names : list string) (ev : event) : bool :=
  match ev with ECall f _ _ => in_names f names | _ => true end.

(** A handler answers once and last: a run that completes wrote exactly
    one response, as its final event, and a run that raises wrote none. *)
Definition responds_once (m : M unit) : Prop :=
  ∀ s, ∃ t, Forall (λ ev, no_response ev = true) t ∧
    match (m s).1 with
    | inr _ => ∃ r, is_response r = true ∧ trace (m s).2 = trace s ++ t ++ [r]
    | inl _ => trace (m s).2 = trace s ++ t
    end.

(** A call to [random.sample] asks for at most [MAX_SYSTEM_RECOMMENDATIONS]
    elements and for no more than the population holds. *)
Definition sample_in_bounds (ev : event) : bool :=
  match ev with
  | ECall f args _ =>
      if String.eqb f "random.sample" then
        match args with
        | [PList population; PInt k] =>
            ((0 <=? k) && (k <=? Z.of_nat (length population))
             && (k <=? Z.of_nat MAX_SYSTEM_RECOMMENDATIONS))%Z
        | _ => false
        end
      else true
  | _ => true
  end.

(** A computation leaves [self.values] as it found it. *)
Definition keeps_values {A} (m : M A) : Prop :=
  ∀ s, values (m s).2 = values s.

(** The handlers that write into [self.values]: the two pages, the init
    handler, and the rating and recommendation readers. *)
Definition updates_values (ep : endpoint) : bool :=
  match ep with
  | ExplorationPageEmbed_GET _ | ExplorationPage_GET _
  | ExplorationHandler_GET _ | RatingHandler_GET _
  | RecommendationsHandler_GET _ => true
  | _ => false
  end.

(** The permission an operation on the service layer asks for: assigning
    a rating needs the rate permission, queueing a flag report the flag
    permission, changing the learner's incomplete lists access to the
    learner dashboard; everything else the handlers do belongs to playing
    an exploration. *)
Definition required_permission (f : string) : permission :=
  if String.eqb f "rating_services.assign_rating_to_exploration"
  then can_rate_exploration
  else if String.eqb f "moderator_services.enqueue_flag_exploration_email_task"
  then can_flag_exploration
  else if in_names f [
         "learner_progress_services.remove_exp_from_incomplete_list";
         "learner_progress_services.remove_collection_from_incomplete_list"]
  then can_access_learner_dashboard
  else can_play_exploration.

Definition permission_eqb (p q : permission) : bool :=
  match p, q with
  | can_play_exploration, can_play_exploration
  | can_access_learner_dashboard, can_access_learner_dashboard
  | can_rate_exploration, can_rate_exploration
  | can_flag_exploration, can_flag_exploration => true
  | _, _ => false
  end.

(** The event is no call, or a call that permission [p] is the one for. *)
Definition covered_by (p : permission) (ev : event) : bool :=
  match ev with
  | ECall f _ _ => permission_eqb (required_permission f) p
  | _ => true
  end.

Definition is_log_error (ev : event) : bool :=
  match ev with ELogError _ => true | _ => false end.

End Observations.

(** ** A small service layer to run the handlers on

    Used by the examples below: every service answers with a fixed value,
    except those that [fails] makes raise; the world counts the calls and
    is what session ids are made of. *)

Definition demo_state (interaction_id : string) : pyval :=
  PObj (list_to_map [
    ("interaction", PObj (list_to_map [("id", PStr interaction_id)]))]).

Definition demo_exploration : pyval :=
  PObj (list_to_map [
    ("title", PStr "Fractions");
    ("objective", PStr "learn fractions");
    ("version", PInt 3);
    ("states", PDict (list_to_map [
       ("Intro", demo_state "TextInput");
       ("Quiz", demo_state "NumericInput");
       ("End", demo_state "EndExploration")]))]).

Definition demo_job (algorithm : string) : pyval :=
  PObj (list_to_map [
    ("algorithm_id", PStr algorithm);
    ("classifier_data", PDict ∅);
    ("data_schema_version", PInt 1)]).

Definition demo_classification : pyval :=
  PDict (list_to_map [
    ("outcome", PDict (list_to_map [("dest", PStr "Quiz")]));
    ("answer_group_index", PInt 0);
    ("rule_spec_index", PInt 1)]).

Definition demo_answer (f : string) (args : list pyval) (w : nat) : exn + pyval :=
  if String.eqb f "exp_services.get_exploration_by_id" then inr demo_exploration
  else if String.eqb f "collection_services.get_collection_by_id" then
    inr (PObj (list_to_map [("title", PStr "Arithmetic")]))
  else if String.eqb f
      "dependency_registry.Registry.get_deps_html_and_angular_modules" then
    inr (PList [PStr "<script></script>"; PList []])
  else if String.eqb f "classifier_services.get_classifier_training_jobs" then
    inr (PList [PNone; demo_job "LDAStringClassifier"; PNone])
  else if String.eqb f "classifier_services.classify" then
    inr demo_classification
  else if String.eqb f "utils.generate_new_session_id" then
    inr (PInt (Z.of_nat w))
  else if String.eqb f
      "collection_services.get_next_exploration_ids_to_complete_by_user" then
    inr (PList [PStr "exp1"; PStr "exp2"])
  else if String.eqb f "get_next_exploration_ids_in_sequence" then
    inr (PList [PStr "exp1"; PStr "exp2"])
  else if String.eqb f
      "recommendations_services.get_exploration_recommendations" then
    inr (PList [PStr "exp1"; PStr "exp2"; PStr "exp3"; PStr "exp4";
                PStr "exp5"; PStr "exp6"; PStr "exp7"])
  else if String.eqb f "random.sample" then
    match args with
    | [PList l; PInt k] =>
        if ((0 <=? k) && (k <=? Z.of_nat (length l)))%Z
        then inr (PList (take (Z.to_nat k) l)) else inl ValueError
    | _ => inl TypeError
    end
  else inr PNone.

Definition demo_oracle (fails : string → option exn)
    (f : string) (args : list pyval) (w : nat) : (exn + pyval) * nat :=
  (match fails f with
   | Some e => inl e
   | None => demo_answer f args w
   end, S w).

(** The text of a JSON list with the one id [exp2]. *)
Definition quote : string := String (Ascii.ascii_of_nat 34) EmptyString.

Definition exp2_text : string := "[" +:+ quote +:+ "exp2" +:+ quote +:+ "]".

(** A stand-in for the JSON decoder on the texts the examples send. *)
Definition demo_json_loads (text : string) : exn + pyval :=
  if String.eqb text "[]" then inr (PList [])
  else if String.eqb text exp2_text then inr (PList [PStr "exp2"])
  else inl ValueError.

(** [int] on unsigned decimal numerals, which is all the examples send. *)
Definition digit (c : Ascii.ascii) : option Z :=
  let n := Ascii.nat_of_ascii c in
  if (48 <=? n)%nat && (n <=? 57)%nat then Some (Z.of_nat (n - 48)) else None.

Fixpoint parse_digits (acc : Z) (s : string) : option Z :=
  match s with
  | EmptyString => Some acc
  | String c s' =>
      match digit c with
      | Some d => parse_digits (10 * acc + d)%Z s'
      | None => None
      end
  end.

Definition demo_int (s : string) : option Z :=
  match s with
  | EmptyString => None
  | _ => parse_digits 0 s
  end.

Definition demo_env (new_stats : bool) (decode : string → exn + pyval)
    (fails : string → option exn) : Env := {|
  W := nat;
  oracle := demo_oracle fails;
  json_loads := decode;
  py_int := demo_int;
  ENABLE_NEW_STATS_FRAMEWORK := new_stats;
  EXPLORATION_URL_EMBED_PREFIX := "/embed/exploration";
  NAV_MODE_EXPLORE := PStr "explore";
  PLAY_TYPE_NORMAL := PStr "normal";
  ACTIVITY_TYPE_EXPLORATION := "exploration";
  ACTIVITY_TYPE_COLLECTION := "collection";
|}.

Definition no_failure : string → option exn := λ _, None.

Definition failing (name : string) (e : exn) : string → option exn :=
  λ f, if String.eqb f name then Some e else None.

Definition demo_request (query : list (string * string))
    (body : list (string * pyval)) : request := {|
  uri := "/explore/exp0";
  params := list_to_map query;
  payload := list_to_map body;
  user_id := Some "uid";
  user := PObj ∅;
|}.

Definition start_state `{E : Env} (w : W) : hstate := HState w ∅ [].

(** The environments of the examples. *)
Definition flagging_down : Env :=
  demo_env false demo_json_loads
    (failing "moderator_services.enqueue_flag_exploration_email_task"
       (ServiceError "DeadlineExceededError")).

Definition exploration_missing : Env :=
  demo_env false demo_json_loads
    (failing "exp_services.get_exploration_by_id"
       (ServiceError "EntityNotFoundError")).

Definition all_up : Env := demo_env true demo_json_loads no_failure.

Definition stats_off : Env := demo_env false demo_json_loads no_failure.

Definition progress_down : Env :=
  demo_env true demo_json_loads
    (failing "learner_progress_services.mark_exploration_as_incomplete"
       (ServiceError "DeadlineExceededError")).

(** A request of a learner who is not logged in. *)
Definition anonymous_request (query : list (string * string))
    (body : list (string * pyval)) : request := {|
  uri := "/explore/exp0";
  params := list_to_map query;
  payload := list_to_map body;
  user_id := None;
  user := PNone;
|}.

(** The states of the demo exploration. *)
Definition demo_states : gmap string pyval :=
  list_to_map [
    ("Intro", demo_state "TextInput");
    ("Quiz", demo_state "NumericInput");
    ("End", demo_state "EndExploration")].

(** The template data of the demo exploration outside a collection. *)
Definition demo_player_data : gmap string pyval :=
  list_to_map [
    ("INTERACTION_SPECS", PNone);
    ("DEFAULT_TWITTER_SHARE_MESSAGE_PLAYER", PNone);
    ("additional_angular_modules", PList []);
    ("can_edit", PBool false);
    ("dependencies_html", PNone);
    ("exploration_title", PStr "Fractions");
    ("exploration_version", PInt 3);
    ("collection_id", PStr EmptyString);
    ("collection_title", PNone);
    ("interaction_templates", PNone);
    ("is_private", PNone);
    ("meta_name", PStr "Fractions");
    ("meta_description", PNone);
    ("nav_mode", PStr "explore")].

Definition rights_deadline : Env :=
  demo_env false demo_json_loads
    (failing "rights_manager.is_exploration_private"
       (ServiceError "DeadlineExceededError")).

(** Unfolding of the monad, for running a handler symbolically. *)
Ltac run := unfold set_difference, py_add, py_len, getattr, getitem, dict_key,
  call_method, render_json, logging_error, redirect, mbind, M_mbind, M_bind,
  mret, M_mret, M_ret, raise, lift, try_except, call, emit, get_values,
  values_update, values_set in *.

(** ** Lemmas on the monad *)

Section MonadLemmas.
Context `{E : Env}.

Lemma new_events_app {A} (m : M A) s t :
  trace (m s).2 = trace s ++ t → new_events m s = t.
Proof.
  intros H. unfold new_events. rewrite H. by rewrite drop_app_length.
Qed.

Lemma raises_last_quiet {A} ok (m : M A) :
  (∀ s, trace (m s).2 = trace s) → raises_last ok m.
Proof.
  intros H s. exists []. rewrite H, app_nil_r. split; [done|].
  intros i ev f e Hi. by rewrite lookup_nil in Hi.
Qed.

Lemma raises_last_ret {A} ok (a : A) : raises_last ok (mret a).
Proof. by apply raises_last_quiet. Qed.

Lemma raises_last_raise {A} ok e : raises_last ok (raise (A := A) e).
Proof. by apply raises_last_quiet. Qed.

Lemma raises_last_lift {A} ok (r : exn + A) : raises_last ok (lift r).
Proof. by apply raises_last_quiet. Qed.

Lemma raises_last_emit ok ev :
  call_raised ev = None → raises_last ok (emit ev).
Proof.
  intros Hev s. exists [ev]. split; [done|].
  intros [|i] ev' f e Hi Hc; simplify_eq/=.
Qed.

Lemma raises_last_call (ok : string → exn → exn → Prop) f args :
  (∀ e, ok f e e) → raises_last ok (call f args).
Proof.
  intros Hok s. unfold call. destruct (oracle f args (world s)) as [r w'] eqn:Ho.
  exists [ECall f args r]. split; [done|].
  intros [|i] ev f' e Hi Hc; simplify_eq/=.
  destruct r; simplify_eq/=. split; [done|]. eauto.
Qed.

Lemma raises_last_bind {A B} ok (m : M A) (k : A → M B) :
  raises_last ok m → (∀ a, raises_last ok (k a)) → raises_last ok (m ≫= k).
Proof.
  intros Hm Hk s. destruct (Hm s) as (t1 & Ht1 & H1).
  unfold mbind, M_mbind, M_bind.
  destruct (m s) as [[e|a] s1] eqn:Hms; simpl in *.
  - exists t1. split; [done|]. intros i ev f e0 Hi Hc.
    destruct (H1 i ev f e0 Hi Hc) as (Hl & e' & He' & Hok). simplify_eq. eauto.
  - destruct (Hk a s1) as (t2 & Ht2 & H2).
    exists (t1 ++ t2). split; [by rewrite Ht2, Ht1, (assoc_L (++))|].
    intros i ev f e0 Hi Hc.
    apply lookup_app_Some in Hi as [Hi|[Hge Hi]].
    + destruct (H1 i ev f e0 Hi Hc) as (_ & e' & He' & _). done.
    + destruct (H2 _ ev f e0 Hi Hc) as (Hl & e' & He' & Hok).
      split; [rewrite length_app; lia|eauto].
Qed.

Lemma raises_last_try {A} (ok1 ok2 : string → exn → exn → Prop)
    (m : M A) (g : exn → exn) :
  raises_last ok1 m →
  (∀ f e e', ok1 f e e' → ok2 f e (g e')) →
  raises_last ok2 (try_except m (λ e, raise (g e))).
Proof.
  intros Hm Hg s. destruct (Hm s) as (t & Ht & H1).
  unfold try_except, raise.
  destruct (m s) as [[e|a] s1] eqn:Hms; simpl in *.
  - exists t. split; [done|]. intros i ev f e0 Hi Hc.
    destruct (H1 i ev f e0 Hi Hc) as (Hl & e' & He' & Hok). simplify_eq.
    split; [done|]. eauto.
  - exists t. split; [done|]. intros i ev f e0 Hi Hc.
    destruct (H1 i ev f e0 Hi Hc) as (_ & e' & He' & _). done.
Qed.

Lemma raises_last_fold_m {A B} ok (body : B → A → M B) l :
  (∀ acc x, raises_last ok (body acc x)) → ∀ acc, raises_last ok (fold_m body acc l).
Proof.
  intros Hb. induction l as [|x l IH]; intros acc; simpl.
  - apply raises_last_ret.
  - apply raises_last_bind; [apply Hb|done].
Qed.

Lemma fold_m_cons {A B} (body : B → A → M B) acc x l s :
  fold_m body acc (x :: l) s
  = match body acc x s with
    | (inr acc', s') => fold_m body acc' l s'
    | (inl e, s') => (inl e, s')
    end.
Proof. done. Qed.

End MonadLemmas.

(** ** How an exception of a service reaches the caller of a handler *)

Section Propagation.
Context `{E : Env} (rq : request).

Ltac rl_call := apply raises_last_call; intros; reflexivity.

Ltac rl_step :=
  lazymatch goal with
  | |- raises_last _ (mbind _ _) => apply raises_last_bind; [|intros ?]
  | |- raises_last _ (mret _) => apply raises_last_ret
  | |- raises_last _ (raise _) => apply raises_last_raise
  | |- raises_last _ (lift _) => apply raises_last_lift
  | |- raises_last _ (getattr _ _) => apply raises_last_lift
  | |- raises_last _ (getitem _ _) => apply raises_last_lift
  | |- raises_last _ (call _ _) => rl_call
  | |- raises_last _ (call_method _ _ _) => rl_call
  | |- raises_last _ get_values => by apply raises_last_quiet
  | |- raises_last _ (values_update _) => by apply raises_last_quiet
  | |- raises_last _ (values_set _ _) => by apply raises_last_quiet
  | |- raises_last _ (render_json _) => by apply raises_last_emit
  | |- raises_last _ (redirect _) => by apply raises_last_emit
  | |- raises_last _ (logging_error _) => by apply raises_last_emit
  | |- raises_last _ (render_template _ _) =>
      apply raises_last_bind; [by apply raises_last_quiet|
                               intros ?; by apply raises_last_emit]
  | |- raises_last _ (parse_version _) =>
      unfold parse_version; repeat case_match
  | |- raises_last _ (unpack2 _) => unfold unpack2; repeat case_match
  | |- raises_last _ (dict_key _) => unfold dict_key; case_match
  | |- raises_last _ (py_len _) => unfold py_len; case_match
  | |- raises_last _ (py_add _ _) => unfold py_add; case_match
  | |- raises_last _ (set_difference _ _) => unfold set_difference
  | |- raises_last _ (if ?b then _ else _) => destruct b
  | |- raises_last _ (match ?x with _ => _ end) => destruct x
  end.

Lemma player_data_raises_last exploration_id version collection_id can_edit :
  raises_last (λ f _ e', in_names f player_data_services = true)
    (_get_exploration_player_data exploration_id version collection_id can_edit).
Proof.
  unfold _get_exploration_player_data.
  apply raises_last_bind.
  { apply (raises_last_try (λ f _ _, in_names f player_data_services = true)
             _ _ (λ _, Exception_)); [repeat rl_step|done]. }
  intros exploration. apply raises_last_bind.
  { case_match; [|repeat rl_step].
    apply (raises_last_try (λ f _ _, in_names f player_data_services = true)
             _ _ (λ _, Exception_)); [repeat rl_step|done]. }
  intros collection_title. repeat rl_step.
Qed.

Lemma classifier_step_raises_last ok jobs acc it :
  raises_last ok (classifier_step jobs acc it).
Proof. unfold classifier_step. destruct it. repeat rl_step. Qed.

Lemma auto_recommended_raises_last exploration_id collection_id incl author :
  raises_last (λ _ e e', e' = e)
    (auto_recommended rq exploration_id collection_id incl author).
Proof. unfold auto_recommended. repeat rl_step. Qed.

Ltac unfold_handler :=
  unfold ExplorationPageEmbed_get, ExplorationPage_get, ExplorationHandler_get,
    AnswerSubmittedEventHandler_post, StateHitEventHandler_post,
    StateCompleteEventHandler_post, ClassifyHandler_post,
    ReaderFeedbackHandler_post, ExplorationStartEventHandler_post,
    ExplorationActualStartEventHandler_post, SolutionHitEventHandler_post,
    ExplorationCompleteEventHandler_post, ExplorationMaybeLeaveHandler_post,
    LearnerIncompleteActivityHandler_delete, RatingHandler_get,
    RatingHandler_put, RecommendationsHandler_get, FlagExplorationHandler_post.

Ltac rl_handler_step :=
  lazymatch goal with
  | |- raises_last _ (try_except (_get_exploration_player_data _ _ _ _) _) =>
      apply (raises_last_try
               (λ f _ _, in_names f player_data_services = true)
               _ _ (λ _, PageNotFoundException None));
      [apply player_data_raises_last
      |let H := fresh in intros ? ? ? H; unfold surfaced; by rewrite H]
  | |- raises_last _ (try_except (call _ _) _) =>
      apply (raises_last_try
               (λ f e e', f = "exp_services.get_exploration_by_id" ∧ e' = e)
               _ _ (λ e, PageNotFoundException (Some e)));
      [by apply raises_last_call|by intros ? ? ? [-> ->]]
  | |- raises_last _ (try_except (lift _) _) =>
      apply (raises_last_try (λ _ _ _, False)
               _ _ (λ _, PageNotFoundException None));
      [apply raises_last_lift|done]
  | |- raises_last _ (fold_m _ _ _) =>
      apply raises_last_fold_m; intros; apply classifier_step_raises_last
  | |- raises_last _ (auto_recommended _ _ _ _ _) =>
      apply auto_recommended_raises_last
  | _ => rl_step
  end.

(** Shared by the statements on not-found and on propagation: in every
    handler a call that raises ends the run, with the exception that the
    [except] clauses of that handler prescribe. *)
Lemma handler_body_raises_last ep :
  raises_last (λ f e e', e' = surfaced ep f e) (handler_body rq ep).
Proof.
  destruct ep; cbn [handler_body]; unfold_handler; repeat rl_handler_step.
Qed.

End Propagation.

(** ** Not-found conditions and propagation of errors *)

Section ErrorHandling.
Context `{E : Env} (rq : request).

Lemma new_events_spec {A} ok (m : M A) s :
  raises_last ok m → trace (m s).2 = trace s ++ new_events m s.
Proof.
  intros Hm. destruct (Hm s) as (t & Ht & _).
  by rewrite (new_events_app _ _ _ Ht).
Qed.

Lemma raised_call_surfaced ep s i ev f e :
  new_events (handler_body rq ep) s !! i = Some ev →
  call_raised ev = Some (f, e) →
  S i = length (new_events (handler_body rq ep) s) ∧
  result (handler_body rq ep) s = inl (surfaced ep f e).
Proof.
  intros Hi Hc. destruct (handler_body_raises_last rq ep s) as (t & Ht & H).
  rewrite (new_events_app _ _ _ Ht) in *.
  destruct (H i ev f e Hi Hc) as (Hl & e' & He' & ->). done.
Qed.

(** C6 (as amended): in every handler, a service call that raises is the
    last thing the handler does (no retry, no further call), and the handler
    ends with the exception given by [surfaced]: the raised exception itself,
    unchanged, except for the calls inside the [try] blocks, that is every
    call made by [_get_exploration_player_data] in the two page handlers and
    the exploration lookup of [ExplorationHandler], which end in
    [PageNotFoundException]. *)
Theorem service_exception_ends_handler ep s i ev f e :
  new_events (handler_body rq ep) s !! i = Some ev →
  call_raised ev = Some (f, e) →
  S i = length (new_events (handler_body rq ep) s) ∧
  result (handler_body rq ep) s = inl (surfaced ep f e) ∧
  (in_try_block ep f = false → surfaced ep f e = e) ∧
  (in_try_block ep f = true → is_page_not_found (surfaced ep f e) = true).
Proof.
  intros Hi Hc. destruct (raised_call_surfaced ep s i ev f e Hi Hc) as [Hl Hr].
  split_and!; [done|done|..]; destruct ep; simpl; try done;
    by intros ->.
Qed.

(** C1 (as amended): the two page handlers and the init handler surface a
    failed lookup as a page-not-found error; [AnswerSubmittedEventHandler]
    has no [try] around its lookup and ends with the exception the lookup
    raised. *)
Theorem lookup_failure_surfaces exploration_id :
  surfaces_not_found lookup_services (ExplorationPage_get rq exploration_id) ∧
  surfaces_not_found lookup_services (ExplorationPageEmbed_get rq exploration_id) ∧
  surfaces_not_found ["exp_services.get_exploration_by_id"]
    (ExplorationHandler_get rq exploration_id) ∧
  ∀ s i ev f e,
    new_events (AnswerSubmittedEventHandler_post rq exploration_id) s !! i
      = Some ev →
    call_raised ev = Some (f, e) →
    result (AnswerSubmittedEventHandler_post rq exploration_id) s = inl e.
Proof.
  split_and!.
  - intros s i ev f e Hi Hc Hf.
    destruct (raised_call_surfaced (ExplorationPage_GET exploration_id)
                s i ev f e Hi Hc) as [_ Hr].
    cbn [surfaced handler_body] in Hr. exists None. rewrite Hr.
    assert (in_names f player_data_services = true) as ->; [|done].
    unfold in_names, lookup_services in *. simpl in *.
    repeat (destruct (String.eqb f _); [done|]). done.
  - intros s i ev f e Hi Hc Hf.
    destruct (raised_call_surfaced (ExplorationPageEmbed_GET exploration_id)
                s i ev f e Hi Hc) as [_ Hr].
    cbn [surfaced handler_body] in Hr. exists None. rewrite Hr.
    assert (in_names f player_data_services = true) as ->; [|done].
    unfold in_names, lookup_services in *. simpl in *.
    repeat (destruct (String.eqb f _); [done|]). done.
  - intros s i ev f e Hi Hc Hf.
    destruct (raised_call_surfaced (ExplorationHandler_GET exploration_id)
                s i ev f e Hi Hc) as [_ Hr].
    cbn [surfaced handler_body] in Hr. exists (Some e). rewrite Hr.
    unfold in_names in Hf. simpl in Hf.
    by destruct (String.eqb f _).
  - intros s i ev f e Hi Hc.
    by destruct (raised_call_surfaced
                   (AnswerSubmittedEventHandler_POST exploration_id)
                   s i ev f e Hi Hc) as [_ Hr].
Qed.

End ErrorHandling.

(** A concrete failure: the flagging service raises, and the flag handler
    ends with that very exception. *)
Lemma service_exception_ends_handler_witness :
  result (E := flagging_down)
    (handler_body (demo_request [] [("report_text", PStr "spam")])
       (FlagExplorationHandler_POST "exp0"))
    (start_state (E := flagging_down) 0%nat)
    = inl (ServiceError "DeadlineExceededError").
Proof.
  destruct (service_exception_ends_handler (E := flagging_down)
    (demo_request [] [("report_text", PStr "spam")])
    (FlagExplorationHandler_POST "exp0")
    (start_state (E := flagging_down) 0%nat) 0%nat
    (ECall "moderator_services.enqueue_flag_exploration_email_task"
       [PStr "exp0"; PStr "spam"; PStr "uid"]
       (inl (ServiceError "DeadlineExceededError")))
    "moderator_services.enqueue_flag_exploration_email_task"
    (ServiceError "DeadlineExceededError")) as (_ & Hr & _ & _).
  - vm_compute. reflexivity.
  - reflexivity.
  - exact Hr.
Defined.

(** When the exploration is missing, the handler of submitted answers ends
    with the exception of the storage layer, not with a page-not-found
    error. *)
Lemma answer_submitted_lookup_not_surfaced :
  ¬ surfaces_not_found (E := exploration_missing)
      ["exp_services.get_exploration_by_id"]
      (AnswerSubmittedEventHandler_post
         (demo_request [] [("old_state_name", PStr "Intro")]) "exp0").
Proof.
  intros H.
  destruct (H (start_state (E := exploration_missing) 0%nat) 0%nat
    (ECall "exp_services.get_exploration_by_id" [PStr "exp0"; PNone]
       (inl (ServiceError "EntityNotFoundError")))
    "exp_services.get_exploration_by_id"
    (ServiceError "EntityNotFoundError")) as [c Hc].
  - vm_compute. reflexivity.
  - reflexivity.
  - reflexivity.
  - vm_compute in Hc. discriminate Hc.
Qed.

(** In the exploration page a deadline error of the rights service, which
    is no not-found condition, does not reach the caller: the page handler
    turns it into a page-not-found error. *)
Lemma page_handler_converts_other_errors :
  ¬ propagates_unchanged (E := rights_deadline)
      (ExplorationPage_get (demo_request [] []) "exp0").
Proof.
  intros H.
  specialize (H (start_state (E := rights_deadline) 0%nat) 11%nat
    (ECall "rights_manager.is_exploration_private" [PStr "exp0"]
       (inl (ServiceError "DeadlineExceededError")))
    "rights_manager.is_exploration_private"
    (ServiceError "DeadlineExceededError")).
  assert (result (E := rights_deadline)
      (ExplorationPage_get (demo_request [] []) "exp0")
      (start_state (E := rights_deadline) 0%nat)
    = inl (PageNotFoundException None)) as Hr by (vm_compute; reflexivity).
  rewrite Hr in H. discriminate H.
  - vm_compute. reflexivity.
  - reflexivity.
  - reflexivity.
Qed.

(** ** Single handlers *)

Section SingleHandlers.
Context `{E : Env} (rq : request).

Lemma payload_get_missing name :
  payload rq !! name = None → payload_get rq name = PNone.
Proof. unfold payload_get. by intros ->. Qed.

Lemma payload_get_present name v :
  payload rq !! name = Some v → payload_get rq name = v.
Proof. unfold payload_get. by intros ->. Qed.

(** C9: a state-hit request without [new_state_name] records nothing: no
    service is called, the error is logged, and the empty JSON object is
    rendered. *)
Theorem state_hit_without_state_logs_error exploration_id s :
  payload rq !! "new_state_name" = None →
  StateHitEventHandler_post rq exploration_id s
    = (inr (), HState (world s) (values s)
                 (trace s ++ [ELogError "Unexpected StateHit event for the END state.";
                              ERenderJson (PDict ∅)])).
Proof.
  intros H. unfold StateHitEventHandler_post.
  rewrite (payload_get_missing "new_state_name" H). run. simpl.
  by rewrite <- (assoc_L (++)).
Qed.

(** C5: when the text of [stringified_author_recommended_ids] does not
    decode, the recommendations handler raises page-not-found from the state
    it started in: nothing was called and nothing was rendered. *)
Theorem malformed_recommendation_ids_not_found exploration_id s e :
  json_loads (request_get rq "stringified_author_recommended_ids") = inl e →
  RecommendationsHandler_get rq exploration_id s
    = (inl (PageNotFoundException None), s).
Proof.
  intros H. unfold RecommendationsHandler_get. run. simpl. by rewrite H.
Qed.

(** C10: without [params] in the payload the classify handler fails, and
    the classifier service has not been called: either building the state
    from its dictionary raised, or the assignment into [params], which is
    [None], raises a [TypeError]. *)
Theorem classify_without_params_fails exploration_id s :
  payload rq !! "params" = None →
  ∃ e, result (ClassifyHandler_post rq exploration_id) s = inl e ∧
    Forall (λ ev, is_call_to "classifier_services.classify" ev = false)
      (new_events (ClassifyHandler_post rq exploration_id) s) ∧
    (∀ old_state, (call "exp_domain.State.from_dict"
                     [payload_get rq "old_state"] s).1 = inr old_state →
                  e = TypeError).
Proof.
  intros H. unfold result, new_events, ClassifyHandler_post.
  rewrite (payload_get_missing "params" H). run. simpl.
  destruct (oracle _ _ (world s)) as [[e|v] w'] eqn:Ho; simpl.
  - exists e. rewrite drop_app_length. split_and!; [done| |done].
    repeat constructor.
  - exists TypeError. rewrite drop_app_length. split_and!.
    + done.
    + repeat constructor.
    + done.
Qed.

(** C2: with a payload whose old state builds and whose [params] is a
    dictionary, the classify handler calls the classifier on that state and
    the answer and renders exactly what the classifier returned: the
    dictionary with the keys [outcome], [answer_group_index] and
    [rule_spec_index] that the classifier produces. *)
Theorem classify_returns_classifier_result exploration_id s
    old_state w1 d classification w2 :
  oracle "exp_domain.State.from_dict" [payload_get rq "old_state"] (world s)
    = (inr old_state, w1) →
  payload rq !! "params" = Some (PDict d) →
  oracle "classifier_services.classify" [old_state; payload_get rq "answer"] w1
    = (inr classification, w2) →
  is_classification_result classification →
  ∃ body,
    ClassifyHandler_post rq exploration_id s
      = (inr (), HState w2 (values s)
                   (trace s ++ [
                      ECall "exp_domain.State.from_dict"
                        [payload_get rq "old_state"] (inr old_state);
                      ECall "classifier_services.classify"
                        [old_state; payload_get rq "answer"]
                        (inr classification);
                      ERenderJson body])) ∧
    body = classification ∧ is_classification_result body.
Proof.
  intros Hstate Hparams Hclassify Hkeys. exists classification.
  split; [|done]. unfold ClassifyHandler_post.
  rewrite (payload_get_present "params" _ Hparams). run. simpl.
  rewrite Hstate. simpl. rewrite Hclassify. simpl.
  by rewrite <- !(assoc_L (++)).
Qed.

End SingleHandlers.

(** ** Event tracking *)

Section Events.
Context `{E : Env} (rq : request).

Ltac branch :=
  match goal with
  | |- context [oracle ?f ?a ?w] =>
      destruct (oracle f a w) as [[?|?] ?] eqn:?; simpl in *; try done
  | |- context [py_getattr ?o ?n] =>
      destruct (py_getattr o n) as [?|?] eqn:?; simpl in *; try done
  | |- context [py_getitem ?o ?n] =>
      destruct (py_getitem o n) as [?|?] eqn:?; simpl in *; try done
  | |- context [py_truthy ?v] =>
      destruct (py_truthy v) eqn:?; simpl in *; try done
  | |- context [ENABLE_NEW_STATS_FRAMEWORK] =>
      destruct ENABLE_NEW_STATS_FRAMEWORK eqn:?; simpl in *; try done
  end.

Ltac finish :=
  rewrite <- ?(assoc_L (++)); rewrite ?drop_app_length; simpl;
  rewrite ?drop_app_length; done.

(** C3 (as amended): a completed event-tracking request that names its
    state has recorded its event and then answered with JSON, provided
    recording is enabled for the endpoint: always for answer submitted,
    state hit, start, complete and maybe-leave, and only under
    [feconf.ENABLE_NEW_STATS_FRAMEWORK] for state complete, actual start
    and solution hit, which otherwise answer with the empty JSON object and
    call nothing. *)
Theorem event_recorded_when_enabled ep name s :
  recorder ep = Some name →
  is_none (payload_get rq (state_name_field ep)) = false →
  result (handler_body rq ep) s = inr () →
  records_then_responds name (new_events (handler_body rq ep) s)
    = recording_enabled ep ∧
  (recording_enabled ep = false →
   new_events (handler_body rq ep) s = [ERenderJson (PDict ∅)]).
Proof.
  intros Hrec Hname Hres.
  destruct ep; simplify_eq/=; unfold result, new_events in *;
    cbn [handler_body] in *.
  - unfold AnswerSubmittedEventHandler_post in *. run. simpl in *.
    repeat branch. split; [finish|done].
  - unfold StateHitEventHandler_post in *. rewrite Hname in *. run. simpl in *.
    repeat branch. split; [finish|done].
  - unfold StateCompleteEventHandler_post in *. run. simpl in *.
    repeat branch; (split; [finish|intros; try done; finish]).
  - unfold ExplorationStartEventHandler_post in *. run. simpl in *.
    repeat branch. split; [finish|done].
  - unfold ExplorationActualStartEventHandler_post in *. run. simpl in *.
    repeat branch; (split; [finish|intros; try done; finish]).
  - unfold SolutionHitEventHandler_post in *. run. simpl in *.
    repeat branch; (split; [finish|intros; try done; finish]).
  - unfold ExplorationCompleteEventHandler_post in *. run. simpl in *.
    repeat branch; (split; [finish|done]).
  - unfold ExplorationMaybeLeaveHandler_post in *. run. simpl in *.
    repeat branch; (split; [finish|done]).
Qed.

End Events.

(** ** Initial data of an exploration *)

Section InitialData.
Context `{E : Env} (rq : request).

(** One iteration of the classifier loop changes nothing but the mapping:
    it leaves it alone for a [None] job and adds the entry of the job
    otherwise. *)
Lemma classifier_step_success jobs acc index name s m s' :
  classifier_step jobs acc (index, PStr name) s = (inr m, s') →
  s' = s ∧
  ∃ job, py_getitem jobs (PInt (Z.of_nat index)) = inr job ∧
    ((is_none job = true ∧ m = acc) ∨
     (is_none job = false ∧
      ∃ a c d, py_getattr job "algorithm_id" = inr a ∧
               py_getattr job "classifier_data" = inr c ∧
               py_getattr job "data_schema_version" = inr d ∧
               m = <[name := classifier_entry a c d]> acc)).
Proof.
  unfold classifier_step. run. intros H.
  destruct (py_getitem jobs (PInt (Z.of_nat index))) as [e|job] eqn:Hjob;
    simpl in *; [done|].
  destruct (is_none job) eqn:Hnone; simpl in *.
  - simplify_eq. eauto 10.
  - destruct (py_getattr job "classifier_data") as [?|c] eqn:Hc;
      simpl in *; [done|].
    destruct (py_getattr job "algorithm_id") as [?|a] eqn:Ha;
      simpl in *; [done|].
    destruct (py_getattr job "data_schema_version") as [?|d] eqn:Hd;
      simpl in *; [done|].
    simplify_eq. split; [done|]. exists job. split; [done|]. right.
    split; [done|]. by exists a, c, d.
Qed.

Lemma classifier_loop_success jobs keys : ∀ k acc s m s',
  NoDup keys →
  fold_m (classifier_step jobs) acc (imap (λ i x, ((k + i)%nat, PStr x)) keys) s
    = (inr m, s') →
  s' = s ∧
  (∀ i name, keys !! i = Some name →
     ∃ job, py_getitem jobs (PInt (Z.of_nat (k + i))) = inr job ∧
       (is_none job = true → m !! name = acc !! name) ∧
       (is_none job = false →
        ∃ a c d, py_getattr job "algorithm_id" = inr a ∧
                 py_getattr job "classifier_data" = inr c ∧
                 py_getattr job "data_schema_version" = inr d ∧
                 m !! name = Some (classifier_entry a c d))) ∧
  (∀ name, name ∉ keys → m !! name = acc !! name).
Proof.
  induction keys as [|x keys IH]; intros k acc s m s' Hnd Hrun.
  - simpl in Hrun. unfold mret, M_mret, M_ret in Hrun. simplify_eq.
    split; [done|]. split; [|done]. intros i name Hi. by rewrite lookup_nil in Hi.
  - apply NoDup_cons in Hnd as [Hx Hnd].
    rewrite imap_cons, fold_m_cons in Hrun.
    destruct (classifier_step jobs acc ((k + 0)%nat, PStr x) s)
      as [[e|acc1] s1] eqn:Hstep; [done|].
    apply classifier_step_success in Hstep as (-> & job & Hjob & Hacc1).
    rewrite (imap_ext _ (λ i y, ((S k + i)%nat, PStr y))) in Hrun
      by (intros; simpl; f_equal; lia).
    destruct (IH (S k) acc1 s m s' Hnd Hrun) as (-> & Hin & Hout).
    split; [done|]. split.
    + intros [|i] name Hi; simpl in Hi.
      * simplify_eq. exists job. split; [done|].
        rewrite (Hout name Hx).
        destruct Hacc1 as [[Hn ->]|(Hn & a & c & d & Ha & Hc & Hd & ->)].
        -- split; [done|]. intros ?; congruence.
        -- split; [intros ?; congruence|]. intros _. exists a, c, d.
           by rewrite lookup_insert_eq.
      * destruct (Hin i name Hi) as (job' & Hjob' & Hnone & Hsome).
        replace (k + S i)%nat with (S k + i)%nat by lia.
        exists job'. split; [done|]. split; [|done].
        intros Hn. rewrite (Hnone Hn).
        assert (x ≠ name) as Hne.
        { intros ->. apply Hx. by eapply list_elem_of_lookup_2. }
        destruct Hacc1 as [[_ ->]|(_ & a & c & d & _ & _ & _ & ->)]; [done|].
        by rewrite lookup_insert_ne.
    + intros name Hname. apply not_elem_of_cons in Hname as [Hne Hname].
      rewrite (Hout name Hname).
      destruct Hacc1 as [[_ ->]|(_ & a & c & d & _ & _ & _ & ->)]; [done|].
      by rewrite lookup_insert_ne.
Qed.

(** The entry of a state: a dictionary of exactly three keys. *)
Lemma classifier_entry_fields a c d :
  ∃ entry, classifier_entry a c d = PDict entry ∧
    entry !! "algorithm_id" = Some a ∧
    entry !! "classifier_data" = Some c ∧
    entry !! "data_schema_version" = Some d ∧
    dom entry = {["algorithm_id"; "classifier_data"; "data_schema_version"]}.
Proof.
  eexists. split; [reflexivity|]. split_and!; [reflexivity..|].
  cbn [list_to_map foldr uncurry fst snd].
  rewrite !dom_insert_L, dom_empty_L. set_solver.
Qed.

Lemma classifier_step_pure jobs acc it s :
  (classifier_step jobs acc it s).2 = s.
Proof.
  unfold classifier_step. destruct it as [index state_name]. run.
  repeat (case_match; simpl in *; simplify_eq; try done).
Qed.

Lemma classifier_loop_pure jobs l : ∀ acc s,
  (fold_m (classifier_step jobs) acc l s).2 = s.
Proof.
  induction l as [|x l IH]; intros acc s; [done|].
  rewrite fold_m_cons.
  pose proof (classifier_step_pure jobs acc x s) as Hp.
  destruct (classifier_step jobs acc x s) as [[e|acc1] s1]; simpl in *;
    subst; [done|apply IH].
Qed.

Lemma classifier_loop_mapping jobs (st : gmap string pyval) s m s' :
  fold_m (classifier_step jobs) ∅
    (imap (λ i x, (i, x)) (PStr <$> (map_to_list st).*1)) s = (inr m, s') →
  classifier_mapping_of (map_to_list st).*1 jobs m.
Proof.
  intros Hrun. rewrite imap_fmap in Hrun.
  destruct (classifier_loop_success jobs (map_to_list st).*1 0 ∅ s m s'
              (NoDup_fst_map_to_list st) Hrun) as (_ & Hin & Hout).
  split.
  - intros name. rewrite elem_of_dom. split.
    + intros [entry Hentry].
      destruct (decide (name ∈ (map_to_list st).*1)) as [Hel|Hnel].
      * apply list_elem_of_lookup_1 in Hel as [i Hi].
        destruct (Hin i name Hi) as (job & Hjob & Hnone & _).
        exists i, job. split; [done|]. split; [done|].
        destruct (is_none job) eqn:Hn; [|done].
        rewrite (Hnone eq_refl), lookup_empty in Hentry. done.
      * rewrite (Hout name Hnel), lookup_empty in Hentry. done.
    + intros (i & job & Hi & Hjob & Hn).
      destruct (Hin i name Hi) as (job' & Hjob' & _ & Hsome).
      simpl in Hjob'. rewrite Hjob in Hjob'. simplify_eq.
      destruct (Hsome Hn) as (a & c & d & _ & _ & _ & ->). eauto.
  - intros i name job Hi [Hjob Hn].
    destruct (Hin i name Hi) as (job' & Hjob' & _ & Hsome).
    simpl in Hjob'. rewrite Hjob in Hjob'. simplify_eq.
    destruct (Hsome Hn) as (a & c & d & Ha & Hc & Hd & Hm).
    destruct (classifier_entry_fields a c d)
      as (entry & Hentry & Hea & Hec & Hed & Hdom).
    rewrite Hentry in Hm. exists a, c, d, entry. done.
Qed.

Ltac step :=
  match goal with
  | |- context [oracle ?f ?a ?w] =>
      destruct (oracle f a w) as [[?|?] ?] eqn:?; simpl in *; try done
  | |- context [py_getattr ?o ?n] =>
      destruct (py_getattr o n) as [?|?] eqn:?; simpl in *; try done
  | |- context [py_iter ?o] =>
      destruct (py_iter o) as [?|?] eqn:?; simpl in *; try done
  | |- context [py_int ?v] =>
      destruct (py_int v) as [?|] eqn:?; simpl in *; try done
  | |- context [is_none ?v] =>
      destruct (is_none v) eqn:?; simpl in *; try done
  | |- context [py_truthy ?v] =>
      destruct (py_truthy v) eqn:?; simpl in *; try done
  | |- context [fold_m (classifier_step ?j) ?a ?l ?s] =>
      let H := fresh "Hfold" in
      let Hp := fresh "Hpure" in
      pose proof (classifier_loop_pure j l a s) as Hp;
      destruct (fold_m (classifier_step j) a l s) as [[?|?] ?] eqn:H;
      simpl in Hp; subst; simpl in *; try done
  end.

(** C4: when the init handler completes, it has fetched the exploration,
    its training jobs, its player dictionary and a new session id, in this
    order, and its last action is the JSON response, in which [exploration]
    is that player dictionary, [session_id] the id generated during this
    request, [version] the exploration's version and
    [state_classifier_mapping] maps exactly the names of the states with a
    training job, each to the dictionary of the job's [algorithm_id],
    [classifier_data] and [data_schema_version] under these three keys. *)
Theorem init_response exploration_id s :
  result (ExplorationHandler_get rq exploration_id) s = inr () →
  ∃ version exploration exp_version states rights settings jobs can_edit
    player_dict session_id vals mapping,
    new_events (ExplorationHandler_get rq exploration_id) s = [
      ECall "exp_services.get_exploration_by_id"
        [PStr exploration_id; version] (inr exploration);
      ECall "rights_manager.get_exploration_rights"
        [PStr exploration_id; PBool false] (inr rights);
      ECall "user_services.get_user_settings" [self_user_id rq] (inr settings);
      ECall "classifier_services.get_classifier_training_jobs"
        [PStr exploration_id; exp_version; states] (inr jobs);
      ECall "rights_manager.check_can_edit_activity"
        [user rq; rights] (inr can_edit);
      ECall "to_player_dict" [exploration] (inr player_dict);
      ECall "utils.generate_new_session_id" [] (inr session_id);
      ERenderJson (PDict vals)] ∧
    py_getattr exploration "version" = inr exp_version ∧
    py_getattr exploration "states" = inr states ∧
    vals !! "exploration" = Some player_dict ∧
    vals !! "session_id" = Some session_id ∧
    vals !! "version" = Some exp_version ∧
    vals !! "state_classifier_mapping" = Some (PDict mapping) ∧
    ∀ st, states = PDict st →
          classifier_mapping_of (map_to_list st).*1 jobs mapping.
Proof.
  unfold result, new_events, ExplorationHandler_get, parse_version. run.
  simpl. intros Hres. revert Hres.
  repeat step.
  all: intros _; eexists _, _, _, _, _, _, _, _, _, _, _, _.
  all: split;
    [rewrite <- !(assoc_L (++)); rewrite drop_app_length; simpl; reflexivity|].
  all: split; [done|]; split; [done|].
  all: split; [apply lookup_union_Some_l; reflexivity|].
  all: split; [apply lookup_union_Some_l; reflexivity|].
  all: split; [apply lookup_union_Some_l; reflexivity|].
  all: split; [apply lookup_union_Some_l; reflexivity|].
  all: intros st ->; simpl in *; simplify_eq;
    by eapply classifier_loop_mapping.
Qed.

End InitialData.

(** ** Recommendations *)

Section Recommendations.
Context `{E : Env} (rq : request).

Local Arguments Nat.min : simpl never.

Ltac step :=
  match goal with
  | |- context [oracle ?f ?a ?w] =>
      destruct (oracle f a w) as [[?|?] ?] eqn:?; simpl in *; try done
  | |- context [py_truthy ?v] =>
      destruct (py_truthy v) eqn:?; simpl in *; try done
  | |- context [as_str_list ?v] =>
      destruct (as_str_list v) as [?|?] eqn:?; simpl in *; try done
  | |- context [py_set_strs ?v] =>
      destruct (py_set_strs v) as [?|?] eqn:?; simpl in *; try done
  end.





End Recommendations.

(** With the new statistics framework enabled the state-complete handler
    records the event and answers with JSON. *)
Lemma event_recorded_when_enabled_witness :
  records_then_responds "event_services.StateCompleteEventHandler.record"
    (new_events (E := all_up)
       (handler_body
          (demo_request [] [("state_name", PStr "Intro"); ("session_id", PStr "s1")])
          (StateCompleteEventHandler_POST "exp0"))
       (start_state (E := all_up) 0%nat)) = true.
Proof.
  apply (event_recorded_when_enabled (E := all_up)
    (demo_request [] [("state_name", PStr "Intro"); ("session_id", PStr "s1")])
    (StateCompleteEventHandler_POST "exp0")
    "event_services.StateCompleteEventHandler.record"
    (start_state (E := all_up) 0%nat)).
  - reflexivity.
  - vm_compute. reflexivity.
  - vm_compute. reflexivity.
Defined.

(** With [ENABLE_NEW_STATS_FRAMEWORK] off, a well-formed state-complete
    request completes without any event being recorded. *)
Lemma state_complete_not_recorded_when_disabled :
  ¬ event_always_recorded (E := stats_off) (StateCompleteEventHandler_POST "exp0").
Proof.
  intros H.
  specialize (H
    (demo_request [] [("state_name", PStr "Intro"); ("session_id", PStr "s1")])
    (start_state (E := stats_off) 0%nat)
    "event_services.StateCompleteEventHandler.record").
  assert (false = true) as Habs; [|discriminate Habs].
  apply H; vm_compute; reflexivity.
Qed.

(** A state-hit request that carries no state name. *)
Lemma state_hit_without_state_logs_error_witness :
  StateHitEventHandler_post (E := all_up)
    (demo_request [] [("session_id", PStr "s1")]) "exp0"
    (start_state (E := all_up) 0%nat)
  = (inr (), HState (E := all_up) 0%nat ∅
               [ELogError "Unexpected StateHit event for the END state.";
                ERenderJson (PDict ∅)]).
Proof.
  apply (state_hit_without_state_logs_error (E := all_up)
    (demo_request [] [("session_id", PStr "s1")]) "exp0"
    (start_state (E := all_up) 0%nat)).
  vm_compute. reflexivity.
Defined.

(** A recommendations request whose id list is cut short. *)
Lemma malformed_recommendation_ids_not_found_witness :
  RecommendationsHandler_get (E := all_up)
    (demo_request [("stringified_author_recommended_ids", "[exp2")] []) "exp0"
    (start_state (E := all_up) 0%nat)
  = (inl (PageNotFoundException None), start_state (E := all_up) 0%nat).
Proof.
  apply (malformed_recommendation_ids_not_found (E := all_up)
    (demo_request [("stringified_author_recommended_ids", "[exp2")] []) "exp0"
    (start_state (E := all_up) 0%nat) ValueError).
  vm_compute. reflexivity.
Defined.

(** A classify payload with a state and an answer but no params. *)
Lemma classify_without_params_fails_witness :
  ∃ e, result (E := all_up)
         (ClassifyHandler_post
            (demo_request [] [("old_state", PDict ∅); ("answer", PStr "1/2")])
            "exp0")
         (start_state (E := all_up) 0%nat) = inl e ∧ e = TypeError.
Proof.
  destruct (classify_without_params_fails (E := all_up)
    (demo_request [] [("old_state", PDict ∅); ("answer", PStr "1/2")]) "exp0"
    (start_state (E := all_up) 0%nat)) as (e & Hr & _ & He).
  - vm_compute. reflexivity.
  - exists e. split; [exact Hr|]. apply (He PNone). vm_compute. reflexivity.
Defined.

(** A complete classify payload. *)
Lemma classify_returns_classifier_result_witness :
  ∃ body,
    ClassifyHandler_post (E := all_up)
      (demo_request []
         [("old_state", PDict ∅); ("answer", PStr "1/2"); ("params", PDict ∅)])
      "exp0" (start_state (E := all_up) 0%nat)
    = (inr (), HState (E := all_up) 2%nat ∅
                 [ECall "exp_domain.State.from_dict" [PDict ∅] (inr PNone);
                  ECall "classifier_services.classify" [PNone; PStr "1/2"]
                    (inr demo_classification);
                  ERenderJson body]) ∧
    body = demo_classification.
Proof.
  destruct (classify_returns_classifier_result (E := all_up)
    (demo_request []
       [("old_state", PDict ∅); ("answer", PStr "1/2"); ("params", PDict ∅)])
    "exp0" (start_state (E := all_up) 0%nat)
    PNone 1%nat ∅ demo_classification 2%nat) as (body & Hrun & Hbody & _).
  - vm_compute. reflexivity.
  - vm_compute. reflexivity.
  - vm_compute. reflexivity.
  - eexists. split; [reflexivity|]. vm_compute. reflexivity.
  - exists body. split; [|exact Hbody]. rewrite Hrun. vm_compute. reflexivity.
Defined.



(** The init request for the demo exploration. *)
Lemma init_response_witness :
  ∃ vals mapping,
    last (new_events (E := all_up)
            (ExplorationHandler_get (demo_request [] []) "exp0")
            (start_state (E := all_up) 0%nat))
      = Some (ERenderJson (PDict vals)) ∧
    vals !! "session_id" = Some (PInt 6) ∧
    vals !! "state_classifier_mapping" = Some (PDict mapping).
Proof.
  destruct (init_response (E := all_up) (demo_request [] []) "exp0"
              (start_state (E := all_up) 0%nat))
    as (version & exploration & exp_version & states & rights & settings
        & jobs & can_edit & player_dict & session_id & vals & mapping
        & Ht & _ & _ & _ & Hsid & _ & Hmap & _).
  - vm_compute. reflexivity.
  - exists vals, mapping. rewrite Ht. split; [reflexivity|]. split; [|exact Hmap].
    rewrite Hsid. f_equal.
    assert (nth_error (new_events (E := all_up)
              (ExplorationHandler_get (demo_request [] []) "exp0")
              (start_state (E := all_up) 0%nat)) 6
            = Some (ECall "utils.generate_new_session_id" [] (inr (PInt 6))))
      as Hc by (vm_compute; reflexivity).
    rewrite Ht in Hc. simpl in Hc. congruence.
Defined.

(** ** The handlers on the demo service layer *)

(** The iteration order of the demo states is End, Intro, Quiz; only the
    second job exists, so only Intro gets an entry. *)
Example init_demo_mapping :
  match last (trace (ExplorationHandler_get (E := all_up)
                       (demo_request [] []) "exp0"
                       (start_state (E := all_up) 0%nat)).2) with
  | Some (ERenderJson (PDict vals)) => vals !! "state_classifier_mapping"
  | _ => None
  end
  = Some (PDict {["Intro" := PDict (list_to_map [
       ("algorithm_id", PStr "LDAStringClassifier");
       ("classifier_data", PDict ∅);
       ("data_schema_version", PInt 1)])]}).
Proof. vm_compute. reflexivity. Qed.

(** An iframed page request is redirected before anything is looked up,
    and the redirect keeps the requested version. *)
Example page_redirects_when_iframed :
  new_events (E := all_up)
    (ExplorationPage_get (demo_request [("iframed", "true"); ("v", "2")] [])
       "exp0")
    (start_state (E := all_up) 0%nat)
  = [ECall "rights_manager.get_exploration_rights" [PStr "exp0"; PBool false]
       (inr PNone);
     ERedirect "/embed/exploration/exp0?v=2"].
Proof. vm_compute. reflexivity. Qed.

(** A version that is no number makes [int] raise before any call. *)
Example page_rejects_bad_version :
  ExplorationPage_get (E := all_up) (demo_request [("v", "two")] []) "exp0"
    (start_state (E := all_up) 0%nat)
  = (inl ValueError, start_state (E := all_up) 0%nat).
Proof. vm_compute. reflexivity. Qed.

(** Four of the six remaining system recommendations are sampled, and the
    summaries are asked for the author's id followed by them. *)
Example recommendations_demo :
  nth_error
    (new_events (E := all_up)
       (RecommendationsHandler_get
          (demo_request [("stringified_author_recommended_ids", exp2_text);
                         ("include_system_recommendations", "true")] [])
          "exp0")
       (start_state (E := all_up) 0%nat)) 2
  = Some (ECall
      "summary_services.get_displayable_exp_summary_dicts_matching_ids"
      [PList [PStr "exp2"; PStr "exp7"; PStr "exp3"; PStr "exp5"; PStr "exp1"]]
      (inr PNone)).
Proof. vm_compute. reflexivity. Qed.

(** A missing exploration in the init handler: page-not-found, carrying the
    exception of the storage layer. *)
Example init_missing_exploration :
  ExplorationHandler_get (E := exploration_missing) (demo_request [] []) "exp0"
    (start_state (E := exploration_missing) 0%nat)
  = (inl (PageNotFoundException (Some (ServiceError "EntityNotFoundError"))),
     HState (E := exploration_missing) 1%nat ∅
       [ECall "exp_services.get_exploration_by_id" [PStr "exp0"; PNone]
          (inl (ServiceError "EntityNotFoundError"))]).
Proof. vm_compute. reflexivity. Qed.

(** * Further properties of the handlers *)

(** ** Events of a run, compositionally *)

Section EventsAll.
Context `{E : Env}.

Lemma events_all_quiet {A} q (m : M A) :
  (∀ s, trace (m s).2 = trace s) → events_all q m.
Proof. intros H s. exists []. by rewrite H, app_nil_r. Qed.

Lemma events_all_emit q ev : q ev = true → events_all q (emit ev).
Proof. intros Hq s. exists [ev]. split; [done|]. by repeat constructor. Qed.

Lemma events_all_call q f args :
  (∀ r, q (ECall f args r) = true) → events_all q (call f args).
Proof.
  intros Hq s. unfold call. destruct (oracle f args (world s)) as [r w'].
  exists [ECall f args r]. split; [done|]. by repeat constructor.
Qed.

Lemma events_all_bind {A B} q (m : M A) (k : A → M B) :
  events_all q m → (∀ a, events_all q (k a)) → events_all q (m ≫= k).
Proof.
  intros Hm Hk s. destruct (Hm s) as (t1 & Ht1 & H1).
  unfold mbind, M_mbind, M_bind.
  destruct (m s) as [[e|a] s1]; simpl in *; [by exists t1|].
  destruct (Hk a s1) as (t2 & Ht2 & H2). exists (t1 ++ t2).
  split; [by rewrite Ht2, Ht1, (assoc_L (++))|]. by apply Forall_app.
Qed.

Lemma events_all_try {A} q (m : M A) (h : exn → M A) :
  events_all q m → (∀ e, events_all q (h e)) → events_all q (try_except m h).
Proof.
  intros Hm Hh s. destruct (Hm s) as (t1 & Ht1 & H1). unfold try_except.
  destruct (m s) as [[e|a] s1]; simpl in *; [|by exists t1].
  destruct (Hh e s1) as (t2 & Ht2 & H2). exists (t1 ++ t2).
  split; [by rewrite Ht2, Ht1, (assoc_L (++))|]. by apply Forall_app.
Qed.

Lemma events_all_fold_m {A B} q (body : B → A → M B) l :
  (∀ acc x, events_all q (body acc x)) → ∀ acc, events_all q (fold_m body acc l).
Proof.
  intros Hb. induction l as [|x l IH]; intros acc; simpl.
  - by apply events_all_quiet.
  - apply events_all_bind; [apply Hb|done].
Qed.

Lemma responds_once_emit ev : is_response ev = true → responds_once (emit ev).
Proof.
  intros Hev s. exists []. split; [done|]. simpl. by exists ev.
Qed.

Lemma responds_once_bind {A} (m : M A) (k : A → M unit) :
  events_all no_response m → (∀ a, responds_once (k a)) →
  responds_once (m ≫= k).
Proof.
  intros Hm Hk s. destruct (Hm s) as (t1 & Ht1 & H1).
  unfold mbind, M_mbind, M_bind.
  destruct (m s) as [[e|a] s1]; simpl in *; [by exists t1|].
  destruct (Hk a s1) as (t2 & H2 & Hr). exists (t1 ++ t2).
  split; [by apply Forall_app|].
  destruct (k a s1).1 as [e|[]].
  - by rewrite Hr, Ht1, (assoc_L (++)).
  - destruct Hr as (r & Hresp & Hr). exists r. split; [done|].
    by rewrite Hr, Ht1, !(assoc_L (++)).
Qed.

End EventsAll.

Ltac ea_step :=
  lazymatch goal with
  | |- events_all _ (mbind _ _) => apply events_all_bind; [|intros ?]
  | |- events_all _ (try_except _ _) => apply events_all_try; [|intros ?]
  | |- events_all _ (mret _) => by apply events_all_quiet
  | |- events_all _ (raise _) => by apply events_all_quiet
  | |- events_all _ (lift _) => by apply events_all_quiet
  | |- events_all _ (getattr _ _) => by apply events_all_quiet
  | |- events_all _ (getitem _ _) => by apply events_all_quiet
  | |- events_all _ get_values => by apply events_all_quiet
  | |- events_all _ (values_update _) => by apply events_all_quiet
  | |- events_all _ (values_set _ _) => by apply events_all_quiet
  | |- events_all _ (call _ _) => apply events_all_call; intros; reflexivity
  | |- events_all _ (call_method _ _ _) =>
      apply events_all_call; intros; reflexivity
  | |- events_all _ (render_json _) => by apply events_all_emit
  | |- events_all _ (redirect _) => by apply events_all_emit
  | |- events_all _ (logging_error _) => by apply events_all_emit
  | |- events_all _ (render_template _ _) =>
      apply events_all_bind; [by apply events_all_quiet|
                              intros ?; by apply events_all_emit]
  | |- events_all _ (fold_m (classifier_step _) _ _) =>
      apply events_all_fold_m; intros ? [? ?]; unfold classifier_step
  | |- events_all _ (parse_version _) => unfold parse_version; repeat case_match
  | |- events_all _ (unpack2 _) => unfold unpack2; repeat case_match
  | |- events_all _ (dict_key _) => unfold dict_key; case_match
  | |- events_all _ (py_len _) => unfold py_len; case_match
  | |- events_all _ (py_add _ _) => unfold py_add; case_match
  | |- events_all _ (set_difference _ _) => unfold set_difference
  | |- events_all _ (_get_exploration_player_data _ _ _ _) =>
      unfold _get_exploration_player_data
  | |- events_all _ (if ?b then _ else _) => destruct b
  | |- events_all _ (match ?x with _ => _ end) => destruct x
  end.

Ltac ro_step :=
  lazymatch goal with
  | |- responds_once (mbind _ _) =>
      apply responds_once_bind; [repeat ea_step|intros ?]
  | |- responds_once (render_json _) => by apply responds_once_emit
  | |- responds_once (redirect _) => by apply responds_once_emit
  | |- responds_once (render_template _ _) =>
      apply responds_once_bind; [by apply events_all_quiet|
                                 intros ?; by apply responds_once_emit]
  | |- responds_once (if ?b then _ else _) => destruct b
  | |- responds_once (match ?x with _ => _ end) => destruct x
  end.

(** ** Authorization comes first *)

Section Authorization.
Context `{E : Env} (rq : request).

Lemma auto_recommended_covered exploration_id collection_id incl author :
  events_all (covered_by can_play_exploration)
    (auto_recommended rq exploration_id collection_id incl author).
Proof. unfold auto_recommended. repeat ea_step. Qed.

(** Whatever a handler body calls is covered by the permission of the
    decorator on it. *)
Lemma handler_body_covered ep :
  events_all (covered_by (decorator ep)) (handler_body rq ep).
Proof.
  destruct ep; cbn [handler_body decorator];
    unfold ExplorationPageEmbed_get, ExplorationPage_get,
      ExplorationHandler_get, AnswerSubmittedEventHandler_post,
      StateHitEventHandler_post, StateCompleteEventHandler_post,
      ClassifyHandler_post, ReaderFeedbackHandler_post,
      ExplorationStartEventHandler_post,
      ExplorationActualStartEventHandler_post, SolutionHitEventHandler_post,
      ExplorationCompleteEventHandler_post, ExplorationMaybeLeaveHandler_post,
      LearnerIncompleteActivityHandler_delete, RatingHandler_get,
      RatingHandler_put, RecommendationsHandler_get,
      FlagExplorationHandler_post;
    repeat first [apply auto_recommended_covered | ea_step].
Qed.

(** C7: for every endpoint, the first thing a routed request does is the
    authorization check of the decorator written on the handler method;
    everything the handler body does comes after it in the trace, and when
    the check raises the body does not run at all. The decorator matches
    the operation: the check is the rate permission for submitting a
    rating, the flag permission for flagging, learner dashboard access for
    the incomplete lists and the play permission for every other handler,
    and every service call a handler body makes is one that the permission
    checked before it is the permission for. *)
Theorem acl_check_precedes_body ep s :
  let check := call (permission_name (decorator ep)) (url_args ep) in
  (∃ r, result check s = r ∧
     match r with
     | inl e =>
         new_events (dispatch rq ep) s
           = [ECall (permission_name (decorator ep)) (url_args ep) (inl e)] ∧
         result (dispatch rq ep) s = inl e
     | inr v =>
         new_events (dispatch rq ep) s
           = ECall (permission_name (decorator ep)) (url_args ep) (inr v)
             :: new_events (handler_body rq ep) (check s).2 ∧
         result (dispatch rq ep) s = result (handler_body rq ep) (check s).2
     end) ∧
  permission_name (decorator ep)
    = match ep with
      | RatingHandler_PUT _ => "acl_decorators.can_rate_exploration"
      | FlagExplorationHandler_POST _ => "acl_decorators.can_flag_exploration"
      | LearnerIncompleteActivityHandler_DELETE _ _ =>
          "acl_decorators.can_access_learner_dashboard"
      | _ => "acl_decorators.can_play_exploration"
      end ∧
  Forall (λ ev, covered_by (decorator ep) ev = true)
    (new_events (handler_body rq ep) (check s).2).
Proof.
  intros check. split; [|split].
  - exists (result check s). split; [done|].
    unfold result, dispatch, acl_decorated, mbind, M_mbind, M_bind.
    fold check. subst check. unfold call at 1 3 5 7.
    destruct (oracle _ _ (world s)) as [[e|v] w'] eqn:Ho; simpl.
    + split; [|done]. apply new_events_app. unfold call. by rewrite Ho.
    + unfold call. rewrite Ho. simpl. split; [|done].
      apply new_events_app.
      pose proof (new_events_spec _ _
        (HState w' (values s)
           (trace s ++ [ECall (permission_name (decorator ep)) (url_args ep)
                          (inr v)]))
        (handler_body_raises_last rq ep)) as Hb.
      simpl in Hb. unfold mbind, M_mbind, M_bind. unfold call. rewrite Ho.
      rewrite Hb. by rewrite <- (assoc_L (++)).
  - by destruct ep.
  - destruct (handler_body_covered ep (check s).2) as (t & Ht & Hall).
    by rewrite (new_events_app _ _ _ Ht).
Qed.

End Authorization.

(** ** One response, and only at the end *)

Section Responses.
Context `{E : Env} (rq : request).

Lemma auto_recommended_silent exploration_id collection_id incl author :
  events_all no_response
    (auto_recommended rq exploration_id collection_id incl author).
Proof. unfold auto_recommended. repeat ea_step. Qed.

Lemma handler_body_responds_once ep : responds_once (handler_body rq ep).
Proof.
  destruct ep; cbn [handler_body];
    unfold ExplorationPageEmbed_get, ExplorationPage_get,
      ExplorationHandler_get, AnswerSubmittedEventHandler_post,
      StateHitEventHandler_post, StateCompleteEventHandler_post,
      ClassifyHandler_post, ReaderFeedbackHandler_post,
      ExplorationStartEventHandler_post,
      ExplorationActualStartEventHandler_post, SolutionHitEventHandler_post,
      ExplorationCompleteEventHandler_post, ExplorationMaybeLeaveHandler_post,
      LearnerIncompleteActivityHandler_delete, RatingHandler_get,
      RatingHandler_put, RecommendationsHandler_get,
      FlagExplorationHandler_post;
    repeat first [apply auto_recommended_silent | ro_step].
Qed.

End Responses.

(** X1: Every handler answers once and last: a completed request wrote exactly
    one response (JSON, page or redirect) as its final event; a request that
    raised wrote none before it failed. *)
Theorem handler_answers_once `{E : Env} (rq : request) ep s :
  match result (handler_body rq ep) s with
  | inr _ =>
      ∃ t r, new_events (handler_body rq ep) s = t ++ [r] ∧
             is_response r = true ∧ Forall (λ ev, no_response ev = true) t
  | inl _ =>
      Forall (λ ev, no_response ev = true) (new_events (handler_body rq ep) s)
  end.
Proof.
  destruct (handler_body_responds_once rq ep s) as (t & Ht & Hr).
  unfold result, new_events. destruct (handler_body rq ep s).1 as [e|[]].
  - by rewrite Hr, drop_app_length.
  - destruct Hr as (r & Hresp & ->). rewrite drop_app_length. eauto.
Qed.

(** ** Branches of single handlers *)

Ltac sym :=
  match goal with
  | |- context [oracle ?f ?a ?w] =>
      destruct (oracle f a w) as [[?|?] ?] eqn:?; simpl in *; try done
  | |- context [py_getattr ?o ?n] =>
      destruct (py_getattr o n) as [?|?] eqn:?; simpl in *; try done
  | |- context [py_getitem ?o ?n] =>
      destruct (py_getitem o n) as [?|?] eqn:?; simpl in *; try done
  | |- context [py_truthy ?v] =>
      destruct (py_truthy v) eqn:?; simpl in *; try done
  | |- context [py_int ?v] =>
      destruct (py_int v) as [?|] eqn:?; simpl in *; try done
  | |- context [is_none ?v] =>
      destruct (is_none v) eqn:?; simpl in *; try done
  end.

Section Branches.
Context `{E : Env} (rq : request).

(** X2: A version parameter that is present but no number makes each of the
    three GET handlers raise [ValueError] before anything is called. *)
Theorem bad_version_rejected exploration_id s :
  py_truthy (PStr (request_get rq "v")) = true →
  py_int (request_get rq "v") = None →
  ExplorationPage_get rq exploration_id s = (inl ValueError, s) ∧
  ExplorationPageEmbed_get rq exploration_id s = (inl ValueError, s) ∧
  ExplorationHandler_get rq exploration_id s = (inl ValueError, s).
Proof.
  intros Hv Hint.
  unfold ExplorationPage_get, ExplorationPageEmbed_get, ExplorationHandler_get,
    parse_version.
  rewrite Hv, Hint. by run.
Qed.

(** X3: An iframed request to the exploration page is redirected to the embed
    page, keeping a given version, once the rights have been read: neither
    the exploration is fetched nor a page rendered. *)
Theorem iframed_page_redirects exploration_id s rights w' :
  (py_truthy (PStr (request_get rq "v")) = true →
   is_Some (py_int (request_get rq "v"))) →
  py_truthy (PStr (request_get rq "iframed")) = true →
  oracle "rights_manager.get_exploration_rights"
    [PStr exploration_id; PBool false] (world s) = (inr rights, w') →
  ExplorationPage_get rq exploration_id s
  = (inr (),
     HState w' (values s)
       (trace s ++ [
          ECall "rights_manager.get_exploration_rights"
            [PStr exploration_id; PBool false] (inr rights);
          ERedirect
            (if py_truthy (PStr (request_get rq "v"))
             then ("/embed/exploration/" +:+ exploration_id)
                    +:+ "?v=" +:+ request_get rq "v"
             else "/embed/exploration/" +:+ exploration_id)])).
Proof.
  intros Hv Hif Hrights. unfold ExplorationPage_get, parse_version.
  rewrite Hif. destruct (py_truthy (PStr (request_get rq "v"))) eqn:Hvs.
  - destruct (Hv eq_refl) as [z Hz]. rewrite Hz. run. simpl.
    rewrite Hrights. simpl. by rewrite <- (assoc_L (++)).
  - run. simpl. rewrite Hrights. simpl. by rewrite <- (assoc_L (++)).
Qed.

(** X16: Removing an activity of a type that is neither exploration nor
    collection touches no service: the handler answers with its values. *)
Theorem unknown_activity_type_ignored activity_type activity_id s :
  String.eqb activity_type ACTIVITY_TYPE_EXPLORATION = false →
  String.eqb activity_type ACTIVITY_TYPE_COLLECTION = false →
  LearnerIncompleteActivityHandler_delete rq activity_type activity_id s
  = (inr (), HState (world s) (values s)
               (trace s ++ [ERenderJson (PDict (values s))])).
Proof.
  intros H1 H2. unfold LearnerIncompleteActivityHandler_delete.
  rewrite H1, H2. by run.
Qed.

(** X18: Ratings for a learner who is not logged in: only the overall ratings
    are read, and [user_rating] in the response is [None]. *)
Theorem anonymous_rating exploration_id s overall w' :
  py_truthy (self_user_id rq) = false →
  oracle "rating_services.get_overall_ratings_for_exploration"
    [PStr exploration_id] (world s) = (inr overall, w') →
  ∃ vals,
    RatingHandler_get rq exploration_id s
    = (inr (), HState w' vals
                 (trace s ++ [
                    ECall "rating_services.get_overall_ratings_for_exploration"
                      [PStr exploration_id] (inr overall);
                    ERenderJson (PDict vals)])) ∧
    vals !! "user_rating" = Some PNone ∧
    vals !! "overall_ratings" = Some overall.
Proof.
  intros Huid Ho. unfold RatingHandler_get.
  rewrite Huid. run. simpl.
  rewrite Ho. simpl. eexists. split; [by rewrite <- (assoc_L (++))|].
  split; apply lookup_union_Some_l; reflexivity.
Qed.

(** X12: Feedback is anonymous unless the learner asks otherwise: without a
    true [include_author] the thread is created with author [None], also
    for a logged-in learner. *)
Theorem feedback_anonymous_by_default exploration_id s :
  py_truthy (payload_get rq "include_author") = false →
  ∃ r, head (new_events (ReaderFeedbackHandler_post rq exploration_id) s)
       = Some (ECall "feedback_services.create_thread"
                 [PStr exploration_id; payload_get rq "state_name"; PNone;
                  payload_get_default rq "subject"
                    (PStr "Feedback from a learner");
                  payload_get rq "feedback"] r).
Proof.
  intros Hinc. unfold new_events, ReaderFeedbackHandler_post.
  rewrite Hinc. run. simpl.
  destruct (oracle _ _ (world s)) as [[e|v] w'] eqn:Ho; simpl.
  - exists (inl e). by rewrite drop_app_length.
  - exists (inr v). by rewrite <- (assoc_L (++)), drop_app_length.
Qed.

(** X8: An answer for a state the exploration does not have: the handler
    raises [KeyError] right after fetching the exploration, and no answer
    event is recorded. *)
Theorem answer_for_unknown_state exploration_id s exploration w' states name :
  oracle "exp_services.get_exploration_by_id"
    [PStr exploration_id; payload_get rq "version"] (world s)
    = (inr exploration, w') →
  py_getattr exploration "states" = inr (PDict states) →
  payload rq !! "old_state_name" = Some (PStr name) →
  states !! name = None →
  AnswerSubmittedEventHandler_post rq exploration_id s
  = (inl KeyError,
     HState w' (values s)
       (trace s ++ [ECall "exp_services.get_exploration_by_id"
                      [PStr exploration_id; payload_get rq "version"]
                      (inr exploration)])).
Proof.
  intros Hexp Hstates Hname Hmissing. unfold AnswerSubmittedEventHandler_post.
  run. simpl. rewrite Hexp. simpl. rewrite Hstates. simpl.
  unfold payload_get at 1. rewrite Hname. simpl.
  unfold py_getitem. by rewrite Hmissing.
Qed.

(** X15: When marking the exploration as incomplete fails for a logged-in
    learner, the maybe-leave event is lost: the handler raises before it
    reaches the event service. *)
Theorem leave_event_lost_when_progress_fails exploration_id s e w' :
  py_truthy (self_user_id rq) = true →
  oracle "learner_progress_services.mark_exploration_as_incomplete"
    [self_user_id rq; PStr exploration_id; payload_get rq "state_name";
     payload_get rq "version"] (world s) = (inl e, w') →
  ExplorationMaybeLeaveHandler_post rq exploration_id s
  = (inl e,
     HState w' (values s)
       (trace s ++ [
          ECall "learner_progress_services.mark_exploration_as_incomplete"
            [self_user_id rq; PStr exploration_id; payload_get rq "state_name";
             payload_get rq "version"] (inl e)])).
Proof.
  intros Huid Ho. unfold ExplorationMaybeLeaveHandler_post.
  rewrite Huid. run. simpl. by rewrite Ho.
Qed.

(** X13: A learner who is not logged in leaves no progress: completing or
    leaving an exploration calls the event service and nothing else. *)
Theorem anonymous_learner_leaves_no_progress exploration_id :
  py_truthy (self_user_id rq) = false →
  events_all
    (calls_within ["event_services.CompleteExplorationEventHandler.record"])
    (ExplorationCompleteEventHandler_post rq exploration_id) ∧
  events_all
    (calls_within ["event_services.MaybeLeaveExplorationEventHandler.record"])
    (ExplorationMaybeLeaveHandler_post rq exploration_id).
Proof.
  intros Huid.
  unfold ExplorationCompleteEventHandler_post, ExplorationMaybeLeaveHandler_post.
  rewrite Huid. simpl. split; repeat ea_step.
Qed.

(** X14: Completing an exploration inside a collection, logged in: the event is
    recorded, the exploration is marked completed and recorded as played,
    and the collection is marked completed exactly when nothing is left to
    complete in it, and incomplete otherwise. *)
Theorem collection_marked_by_what_is_left exploration_id s :
  py_truthy (self_user_id rq) = true →
  py_truthy (payload_get rq "collection_id") = true →
  result (ExplorationCompleteEventHandler_post rq exploration_id) s = inr () →
  ∃ v1 v2 v3 left v5,
    new_events (ExplorationCompleteEventHandler_post rq exploration_id) s = [
      ECall "event_services.CompleteExplorationEventHandler.record"
        [PStr exploration_id; payload_get rq "version";
         payload_get rq "state_name"; payload_get rq "session_id";
         payload_get rq "client_time_spent_in_secs"; payload_get rq "params";
         PLAY_TYPE_NORMAL] (inr v1);
      ECall "learner_progress_services.mark_exploration_as_completed"
        [self_user_id rq; PStr exploration_id] (inr v2);
      ECall "collection_services.record_played_exploration_in_collection_context"
        [self_user_id rq; payload_get rq "collection_id"; PStr exploration_id]
        (inr v3);
      ECall "collection_services.get_next_exploration_ids_to_complete_by_user"
        [self_user_id rq; payload_get rq "collection_id"] (inr left);
      ECall (if py_truthy left
             then "learner_progress_services.mark_collection_as_incomplete"
             else "learner_progress_services.mark_collection_as_completed")
        [self_user_id rq; payload_get rq "collection_id"] (inr v5);
      ERenderJson (PDict (values s))].
Proof.
  intros Huid Hcoll. unfold result, new_events,
    ExplorationCompleteEventHandler_post.
  rewrite Huid, Hcoll. run. simpl.
  repeat sym.
  all: intros _; eexists _, _, _, _, _.
  all: rewrite <- !(assoc_L (++)), drop_app_length; simpl.
  all: match goal with H : py_truthy _ = _ |- _ => rewrite ?H end.
  all: reflexivity.
Qed.

(** X10: A state-hit request either records the hit or logs the error, never
    both and never neither: it logs exactly when the state name is [None]. *)
Theorem state_hit_records_or_logs exploration_id s :
  existsb is_log_error (new_events (StateHitEventHandler_post rq exploration_id) s)
    = is_none (payload_get rq "new_state_name") ∧
  existsb (is_call_to "event_services.StateHitEventHandler.record")
    (new_events (StateHitEventHandler_post rq exploration_id) s)
    = negb (is_none (payload_get rq "new_state_name")).
Proof.
  unfold new_events, StateHitEventHandler_post.
  destruct (is_none (payload_get rq "new_state_name")); run; simpl.
  - by rewrite <- (assoc_L (++)), drop_app_length.
  - destruct (oracle _ _ (world s)) as [[e|v] w']; simpl;
      rewrite <- ?(assoc_L (++)), drop_app_length; done.
Qed.

End Branches.

(** ** What the handlers leave alone *)

Section KeepsValues.
Context `{E : Env}.

Lemma keeps_values_quiet {A} (m : M A) :
  (∀ s, (m s).2 = s) → keeps_values m.
Proof. intros H s. by rewrite H. Qed.

Lemma keeps_values_emit ev : keeps_values (emit ev).
Proof. done. Qed.

Lemma keeps_values_call f args : keeps_values (call f args).
Proof. intros s. unfold call. by destruct (oracle f args (world s)). Qed.

Lemma keeps_values_bind {A B} (m : M A) (k : A → M B) :
  keeps_values m → (∀ a, keeps_values (k a)) → keeps_values (m ≫= k).
Proof.
  intros Hm Hk s. specialize (Hm s). unfold mbind, M_mbind, M_bind.
  destruct (m s) as [[e|a] s1]; simpl in *; [done|]. by rewrite Hk.
Qed.

Lemma keeps_values_try {A} (m : M A) (h : exn → M A) :
  keeps_values m → (∀ e, keeps_values (h e)) → keeps_values (try_except m h).
Proof.
  intros Hm Hh s. specialize (Hm s). unfold try_except.
  destruct (m s) as [[e|a] s1]; simpl in *; [|done]. by rewrite Hh.
Qed.

End KeepsValues.

Ltac kv_step :=
  lazymatch goal with
  | |- keeps_values (mbind _ _) => apply keeps_values_bind; [|intros ?]
  | |- keeps_values (try_except _ _) => apply keeps_values_try; [|intros ?]
  | |- keeps_values (mret _) => by apply keeps_values_quiet
  | |- keeps_values (raise _) => by apply keeps_values_quiet
  | |- keeps_values (lift _) => by apply keeps_values_quiet
  | |- keeps_values (getattr _ _) => by apply keeps_values_quiet
  | |- keeps_values (getitem _ _) => by apply keeps_values_quiet
  | |- keeps_values get_values => by apply keeps_values_quiet
  | |- keeps_values (call _ _) => apply keeps_values_call
  | |- keeps_values (call_method _ _ _) => apply keeps_values_call
  | |- keeps_values (render_json _) => apply keeps_values_emit
  | |- keeps_values (redirect _) => apply keeps_values_emit
  | |- keeps_values (logging_error _) => apply keeps_values_emit
  | |- keeps_values (unpack2 _) => unfold unpack2; repeat case_match
  | |- keeps_values (_get_exploration_player_data _ _ _ _) =>
      unfold _get_exploration_player_data
  | |- keeps_values (if ?b then _ else _) => destruct b
  | |- keeps_values (match ?x with _ => _ end) => destruct x
  end.

Section LeftAlone.
Context `{E : Env} (rq : request).

Lemma player_data_keeps_values exploration_id version collection_id can_edit :
  keeps_values
    (_get_exploration_player_data exploration_id version collection_id can_edit).
Proof. repeat kv_step. Qed.

(** X19: Only the two pages, the init handler and the rating and recommendation
    readers write into [self.values]; every other handler, whatever its
    outcome, leaves the values as it found them. *)
Theorem other_handlers_keep_values ep :
  updates_values ep = false → keeps_values (handler_body rq ep).
Proof.
  intros Hep. destruct ep; try discriminate Hep; cbn [handler_body];
    unfold AnswerSubmittedEventHandler_post,
      StateHitEventHandler_post, StateCompleteEventHandler_post,
      ClassifyHandler_post, ReaderFeedbackHandler_post,
      ExplorationStartEventHandler_post,
      ExplorationActualStartEventHandler_post, SolutionHitEventHandler_post,
      ExplorationCompleteEventHandler_post, ExplorationMaybeLeaveHandler_post,
      LearnerIncompleteActivityHandler_delete,
      RatingHandler_put, FlagExplorationHandler_post;
    repeat kv_step.
Qed.

(** X11: The classify handler is stateless towards the service layer: whatever
    the payload, it calls nothing but the state constructor and the
    classifier; the exploration named in the URL is never fetched. *)
Theorem classify_calls_only_classifier exploration_id :
  events_all
    (calls_within ["exp_domain.State.from_dict"; "classifier_services.classify"])
    (ClassifyHandler_post rq exploration_id).
Proof. unfold ClassifyHandler_post. repeat ea_step. Qed.

(** X20: For a logged-in learner inside a collection the recommendations come
    from the collection alone: the system recommendations are not read and
    nothing is sampled, also when they were asked for and also when nothing
    is left in the collection. *)
Theorem collection_recommendations_skip_system exploration_id :
  py_truthy (self_user_id rq) = true →
  py_truthy (PStr (request_get rq "collection_id")) = true →
  events_all
    (calls_within [
       "collection_services.get_next_exploration_ids_to_complete_by_user";
       "summary_services.get_displayable_exp_summary_dicts_matching_ids"])
    (RecommendationsHandler_get rq exploration_id).
Proof.
  intros Huid Hcoll. unfold RecommendationsHandler_get, auto_recommended.
  rewrite Huid, Hcoll. simpl. repeat ea_step.
Qed.

End LeftAlone.

(** ** Sampling stays in bounds *)

Section Sampling.
Context `{E : Env} (rq : request).

Local Arguments Nat.min : simpl never.

Ltac step :=
  match goal with
  | |- context [oracle ?f ?a ?w] =>
      destruct (oracle f a w) as [[?|?] ?] eqn:?; simpl in *
  | |- context [py_truthy ?v] =>
      destruct (py_truthy v) eqn:?; simpl in *
  | |- context [as_str_list ?v] =>
      destruct (as_str_list v) as [?|?] eqn:?; simpl in *
  | |- context [py_set_strs ?v] =>
      destruct (py_set_strs v) as [?|?] eqn:?; simpl in *
  end.

Lemma sample_size_in_bounds (n : nat) :
  ((0 <=? Z.of_nat (MAX_SYSTEM_RECOMMENDATIONS `min` n))
   && (Z.of_nat (MAX_SYSTEM_RECOMMENDATIONS `min` n) <=? Z.of_nat n)
   && (Z.of_nat (MAX_SYSTEM_RECOMMENDATIONS `min` n)
       <=? Z.of_nat MAX_SYSTEM_RECOMMENDATIONS))%Z = true.
Proof.
  rewrite !andb_true_iff, !Z.leb_le. unfold MAX_SYSTEM_RECOMMENDATIONS. lia.
Qed.

Lemma auto_recommended_samples_in_bounds exploration_id collection_id incl author :
  events_all sample_in_bounds
    (auto_recommended rq exploration_id collection_id incl author).
Proof.
  intros s. unfold auto_recommended. run. simpl.
  repeat step.
  all: eexists; split;
    [first [symmetry; apply app_nil_r
           |rewrite <- ?(assoc_L (++)); reflexivity]|].
  all: repeat (apply Forall_app; split).
  all: repeat constructor.
  all: simpl; apply sample_size_in_bounds.
Qed.

(** X22: Whatever the services return, the recommendations handler never asks
    [random.sample] for more than [MAX_SYSTEM_RECOMMENDATIONS] ids nor for
    more ids than the population it passes holds. *)
Theorem sample_requests_in_bounds exploration_id :
  events_all sample_in_bounds (RecommendationsHandler_get rq exploration_id).
Proof.
  unfold RecommendationsHandler_get.
  repeat first [apply auto_recommended_samples_in_bounds | ea_step].
Qed.

End Sampling.

(** ** The pages *)

Section Pages.
Context `{E : Env} (rq : request).

Lemma player_data_extends_trace exploration_id version collection_id can_edit s :
  ∃ t, trace (_get_exploration_player_data exploration_id version
                collection_id can_edit s).2 = trace s ++ t.
Proof.
  destruct (player_data_raises_last exploration_id version collection_id
              can_edit s) as (t & Ht & _). eauto.
Qed.

(** X4: What a completed page request rendered: the exploration page renders
    the player template with [iframed] false and the default frame
    restriction, unless it redirected; the embed page renders it with
    [iframed] true and the frame restriction lifted. *)
Theorem pages_render_iframed_flag exploration_id s :
  (result (ExplorationPage_get rq exploration_id) s = inr () →
   (∃ url, last (new_events (ExplorationPage_get rq exploration_id) s)
           = Some (ERedirect url)) ∨
   ∃ vals, last (new_events (ExplorationPage_get rq exploration_id) s)
           = Some (ERenderTemplate
                     "pages/exploration_player/exploration_player.html"
                     None vals) ∧
           vals !! "iframed" = Some (PBool false)) ∧
  (result (ExplorationPageEmbed_get rq exploration_id) s = inr () →
   ∃ vals, last (new_events (ExplorationPageEmbed_get rq exploration_id) s)
           = Some (ERenderTemplate
                     "pages/exploration_player/exploration_player.html"
                     (Some PNone) vals) ∧
           vals !! "iframed" = Some (PBool true)).
Proof.
  split.
  - unfold result, new_events, ExplorationPage_get, parse_version,
      render_template. run. simpl.
    repeat sym.
    all: try (intros _; left; eexists;
              rewrite <- ?(assoc_L (++)), drop_app_length; reflexivity).
    all: match goal with
         | |- context [_get_exploration_player_data ?i ?v ?c ?e ?s0] =>
             destruct (player_data_extends_trace i v c e s0) as [t Ht];
             destruct (_get_exploration_player_data i v c e s0)
               as [[?|d] s2]; simpl in *; [done|]
         end.
    all: intros _; right; eexists; rewrite Ht; simpl.
    all: rewrite <- ?(assoc_L (++)), drop_app_length.
    all: split; [by rewrite !(assoc_L (++)), last_snoc|].
    all: apply lookup_insert_eq.
  - unfold result, new_events, ExplorationPageEmbed_get, parse_version,
      render_template. run. simpl.
    repeat sym.
    all: repeat match goal with
         | |- context [if ?b then _ else _] => destruct b; simpl
         end.
    all: match goal with
         | |- context [_get_exploration_player_data ?i ?v ?c ?e ?s0] =>
             destruct (player_data_extends_trace i v c e s0) as [t Ht];
             destruct (_get_exploration_player_data i v c e s0)
               as [[?|d] s2]; simpl in *; [done|]
         end.
    all: intros _; eexists; rewrite Ht; simpl.
    all: rewrite <- ?(assoc_L (++)), drop_app_length.
    all: split; [by rewrite !(assoc_L (++)), last_snoc|].
    all: apply lookup_insert_eq.
Qed.

(** X5: On the embed page the [iframed] flag is in [self.values] by the time
    the exploration is looked up, when the URL has the embed prefix or the
    request says [iframed]: it is there when the lookup fails, for the
    error page, and when the page is rendered. *)
Theorem embed_flag_set_before_lookup exploration_id s :
  str_contains EXPLORATION_URL_EMBED_PREFIX (uri rq)
    || py_truthy (PStr (request_get rq "iframed")) = true →
  existsb (is_call_to "exp_services.get_exploration_by_id")
    (new_events (ExplorationPageEmbed_get rq exploration_id) s) = true →
  values (ExplorationPageEmbed_get rq exploration_id s).2 !! "iframed"
    = Some (PBool true).
Proof.
  intros Hembed. unfold new_events, ExplorationPageEmbed_get, parse_version,
    render_template.
  rewrite Hembed. run. simpl.
  repeat match goal with
  | |- context [oracle ?f ?a ?w] =>
      destruct (oracle f a w) as [[?|?] ?] eqn:?; simpl in *
  | |- context [py_truthy ?v] =>
      destruct (py_truthy v) eqn:?; simpl in *
  | |- context [py_int ?v] =>
      destruct (py_int v) as [?|] eqn:?; simpl in *
  end.
  all: try (rewrite <- ?(assoc_L (++)), ?drop_app_length; simpl; done).
  all: try (rewrite drop_all; simpl; done).
  all: match goal with
       | |- context [_get_exploration_player_data ?i ?v ?c ?e ?s0] =>
           pose proof (player_data_keeps_values i v c e s0) as Hkeep;
           destruct (_get_exploration_player_data i v c e s0)
             as [[?|d] s2]; simpl in *
       end.
  all: intros _; rewrite ?Hkeep; by rewrite lookup_insert_eq.
Qed.

Ltac pd_step :=
  match goal with
  | |- context [oracle ?f ?a ?w] =>
      destruct (oracle f a w) as [[?|?] ?] eqn:?; simpl in *; try done
  | |- context [py_getattr ?o ?n] =>
      destruct (py_getattr o n) as [?|?] eqn:?; simpl in *; try done
  | |- context [py_iter ?o] =>
      destruct (py_iter o) as [?|[|? [|? [|? ?]]]] eqn:?; simpl in *; try done
  end.

(** X6: The data for the player template describes the exploration that was
    fetched: [exploration_version] is the version of the fetched
    exploration, whatever version was asked for, its title serves as
    [exploration_title] and as [meta_name], and without a collection id no
    collection is looked up and [collection_title] is [None]. *)
Theorem player_data_describes_fetched_exploration
    exploration_id version collection_id can_edit s d s' :
  _get_exploration_player_data exploration_id version collection_id can_edit s
    = (inr d, s') →
  ∃ exploration fetched_version title t,
    trace s' = trace s ++
      ECall "exp_services.get_exploration_by_id"
        [PStr exploration_id; version] (inr exploration) :: t ∧
    py_getattr exploration "version" = inr fetched_version ∧
    py_getattr exploration "title" = inr title ∧
    d !! "exploration_version" = Some fetched_version ∧
    d !! "exploration_title" = Some title ∧
    d !! "meta_name" = Some title ∧
    d !! "can_edit" = Some can_edit ∧
    d !! "collection_id" = Some (PStr collection_id) ∧
    (py_truthy (PStr collection_id) = false →
     d !! "collection_title" = Some PNone ∧
     existsb (is_call_to "collection_services.get_collection_by_id") t = false).
Proof.
  unfold _get_exploration_player_data, unpack2. run. simpl.
  destruct (py_truthy (PStr collection_id)) eqn:Hcoll; simpl.
  all: repeat pd_step.
  all: intros [= <- <-]; simpl.
  all: eexists _, _, _, _.
  all: split; [rewrite <- !(assoc_L (++)); simpl; reflexivity|].
  all: split; [done|]; split; [done|].
  all: split_and!; try reflexivity; try done.
Qed.

End Pages.

(** ** Training jobs and states *)

Section JobSlots.
Context `{E : Env} (rq : request).

Lemma getitem_in_range (js : list pyval) (i : nat) job :
  py_getitem (PList js) (PInt (Z.of_nat i)) = inr job → (i < length js)%nat.
Proof.
  unfold py_getitem. destruct (Z.of_nat i <? 0)%Z eqn:Hneg; [lia|].
  destruct ((0 <=? Z.of_nat i) && (Z.of_nat i <? Z.of_nat (length js)))%Z
    eqn:Hin; [|done].
  intros _. apply andb_prop in Hin as [_ Hin]. lia.
Qed.

Lemma classifier_loop_needs_jobs js (st : gmap string pyval) s m s' :
  fold_m (classifier_step (PList js)) ∅
    (imap (λ i x, (i, x)) (PStr <$> (map_to_list st).*1)) s = (inr m, s') →
  (size st ≤ length js)%nat.
Proof.
  intros Hrun. rewrite imap_fmap in Hrun.
  destruct (classifier_loop_success (PList js) (map_to_list st).*1 0 ∅ s m s'
              (NoDup_fst_map_to_list st) Hrun) as (_ & Hin & _).
  rewrite <- length_map_to_list, <- (length_fmap fst).
  destruct (decide (length (map_to_list st).*1 ≤ length js)%nat) as [|Hlt];
    [done|].
  destruct (lookup_lt_is_Some_2 (map_to_list st).*1 (length js)) as [name Hname];
    [lia|].
  destruct (Hin _ name Hname) as (job & Hjob & _).
  apply getitem_in_range in Hjob. lia.
Qed.

Ltac step :=
  match goal with
  | |- context [oracle ?f ?a ?w] =>
      destruct (oracle f a w) as [[?|?] ?] eqn:?; simpl in *; try done
  | |- context [py_getattr ?o ?n] =>
      destruct (py_getattr o n) as [?|?] eqn:?; simpl in *; try done
  | |- context [py_iter ?o] =>
      destruct (py_iter o) as [?|?] eqn:?; simpl in *; try done
  | |- context [py_int ?v] =>
      destruct (py_int v) as [?|] eqn:?; simpl in *; try done
  | |- context [is_none ?v] =>
      destruct (is_none v) eqn:?; simpl in *; try done
  | |- context [py_truthy ?v] =>
      destruct (py_truthy v) eqn:?; simpl in *; try done
  | |- context [fold_m (classifier_step ?j) ?a ?l ?s] =>
      let H := fresh "Hfold" in
      let Hp := fresh "Hpure" in
      pose proof (classifier_loop_pure j l a s) as Hp;
      destruct (fold_m (classifier_step j) a l s) as [[?|?] ?] eqn:H;
      simpl in Hp; subst; simpl in *; try done
  end.

(** X7: The init handler completes only if the classifier service returned a
    job slot for every state: with fewer jobs than states the loop runs off
    the end of the list and the request fails without a response. *)
Theorem init_needs_job_per_state exploration_id s exploration version st
    args js :
  result (ExplorationHandler_get rq exploration_id) s = inr () →
  ECall "exp_services.get_exploration_by_id"
    [PStr exploration_id; version] (inr exploration)
    ∈ new_events (ExplorationHandler_get rq exploration_id) s →
  py_getattr exploration "states" = inr (PDict st) →
  ECall "classifier_services.get_classifier_training_jobs" args
    (inr (PList js))
    ∈ new_events (ExplorationHandler_get rq exploration_id) s →
  (size st ≤ length js)%nat.
Proof.
  unfold result, new_events, ExplorationHandler_get, parse_version. run.
  simpl. intros Hres. revert Hres.
  repeat step.
  all: intros _; rewrite <- !(assoc_L (++)), drop_app_length; simpl.
  all: intros Hexp Hst Hjobs.
  all: repeat (apply elem_of_cons in Hexp as [Hexp|Hexp]; [simplify_eq|]).
  all: try by apply elem_of_nil in Hexp.
  all: repeat (apply elem_of_cons in Hjobs as [Hjobs|Hjobs]; [simplify_eq|]).
  all: try by apply elem_of_nil in Hjobs.
  all: simpl in *; simplify_eq.
  all: match goal with
       | H1 : py_getattr ?o "states" = inr (PDict _),
         H2 : py_getattr ?o "states" = inr _ |- _ => rewrite H1 in H2
       end.
  all: simplify_eq/=; by eapply classifier_loop_needs_jobs.
Qed.

End JobSlots.

(** ** Answers, removals and the author's recommendations *)

Section MoreBranches.
Context `{E : Env} (rq : request).

(** X9: A completed answer submission recorded the answer as normalized by the
    interaction of the old state, not the raw answer, together with that
    interaction's id; parameters missing from the payload are recorded as
    the empty dictionary. *)
Theorem answer_recorded_normalized exploration_id s :
  result (AnswerSubmittedEventHandler_post rq exploration_id) s = inr () →
  ∃ exploration states old_state interaction interaction_id instance
    normalized_answer recorded,
    py_getattr exploration "states" = inr states ∧
    py_getitem states (payload_get rq "old_state_name") = inr old_state ∧
    py_getattr old_state "interaction" = inr interaction ∧
    py_getattr interaction "id" = inr interaction_id ∧
    new_events (AnswerSubmittedEventHandler_post rq exploration_id) s = [
      ECall "exp_services.get_exploration_by_id"
        [PStr exploration_id; payload_get rq "version"] (inr exploration);
      ECall "interaction_registry.Registry.get_interaction_by_id"
        [interaction_id] (inr instance);
      ECall "normalize_answer" [instance; payload_get rq "answer"]
        (inr normalized_answer);
      ECall "event_services.AnswerSubmissionEventHandler.record"
        [PStr exploration_id; payload_get rq "version";
         payload_get rq "old_state_name"; interaction_id;
         payload_get rq "answer_group_index"; payload_get rq "rule_spec_index";
         payload_get rq "classification_categorization";
         payload_get rq "session_id";
         payload_get rq "client_time_spent_in_secs";
         default (PDict ∅) (payload rq !! "params");
         normalized_answer] (inr recorded);
      ERenderJson (PDict ∅)].
Proof.
  unfold result, new_events, AnswerSubmittedEventHandler_post. run. simpl.
  repeat sym. intros _. eexists _, _, _, _, _, _, _, _.
  split_and!; [done..|].
  by rewrite <- !(assoc_L (++)), drop_app_length.
Qed.

(** X17: Removing an exploration from the incomplete list asks the progress
    service for exactly that, with the learner and the activity id, and
    never touches the list of collections. *)
Theorem exploration_removed_from_incomplete_list activity_type activity_id :
  String.eqb activity_type ACTIVITY_TYPE_EXPLORATION = true →
  events_all
    (calls_within ["learner_progress_services.remove_exp_from_incomplete_list"])
    (LearnerIncompleteActivityHandler_delete rq activity_type activity_id) ∧
  ∀ s, ∃ r,
    head (new_events
            (LearnerIncompleteActivityHandler_delete rq activity_type activity_id)
            s)
    = Some (ECall "learner_progress_services.remove_exp_from_incomplete_list"
              [self_user_id rq; PStr activity_id] r).
Proof.
  intros Htype. unfold LearnerIncompleteActivityHandler_delete.
  rewrite Htype. split; [repeat ea_step|].
  intros s. unfold new_events. run. simpl.
  destruct (oracle _ _ (world s)) as [[e|v] w']; simpl.
  - exists (inl e). by rewrite drop_app_length.
  - exists (inr v). by rewrite <- (assoc_L (++)), drop_app_length.
Qed.

(** X21: Outside a collection and without a request for system
    recommendations, the summaries are those of the author's ids alone, and
    the summary service is the only one called. *)
Theorem author_only_recommendations exploration_id s author :
  json_loads (request_get rq "stringified_author_recommended_ids")
    = inr (PList author) →
  py_truthy (PStr (request_get rq "collection_id")) = false →
  py_truthy (PStr (request_get rq "include_system_recommendations")) = false →
  ∃ r,
    new_events (RecommendationsHandler_get rq exploration_id) s
    = ECall "summary_services.get_displayable_exp_summary_dicts_matching_ids"
        [PList author] r
      :: match r with
         | inr summaries =>
             [ERenderJson
                (PDict (<["summaries" := summaries]> (values s)))]
         | inl _ => []
         end.
Proof.
  intros Hjson Hcoll Hincl.
  unfold new_events, RecommendationsHandler_get, auto_recommended.
  rewrite Hjson, Hcoll, Hincl, andb_false_r. run. simpl.
  rewrite app_nil_r.
  destruct (oracle _ _ (world s)) as [[e|v] w']; simpl.
  - exists (inl e). by rewrite drop_app_length.
  - exists (inr v). rewrite <- (assoc_L (++)), drop_app_length.
    simpl. do 4 f_equal. apply map_eq. intros k.
    destruct (decide (k = "summaries")) as [->|Hne].
    + rewrite lookup_insert_eq. by apply lookup_union_Some_l.
    + rewrite lookup_insert_ne by done.
      rewrite lookup_union_r; [done|]. by rewrite lookup_insert_ne.
Qed.

End MoreBranches.

(** ** The further properties on the demo service layer *)

Lemma bad_version_rejected_witness :
  ExplorationHandler_get (E := all_up) (demo_request [("v", "two")] []) "exp0"
    (start_state (E := all_up) 0%nat)
  = (inl ValueError, start_state (E := all_up) 0%nat).
Proof.
  apply (bad_version_rejected (E := all_up) (demo_request [("v", "two")] [])
           "exp0" (start_state (E := all_up) 0%nat));
    vm_compute; reflexivity.
Defined.

Lemma iframed_page_redirects_witness :
  ExplorationPage_get (E := all_up)
    (demo_request [("iframed", "true"); ("v", "2")] []) "exp0"
    (start_state (E := all_up) 0%nat)
  = (inr (),
     HState (E := all_up) 1%nat ∅
       [ECall "rights_manager.get_exploration_rights"
          [PStr "exp0"; PBool false] (inr PNone);
        ERedirect "/embed/exploration/exp0?v=2"]).
Proof.
  rewrite (iframed_page_redirects (E := all_up)
             (demo_request [("iframed", "true"); ("v", "2")] []) "exp0"
             (start_state (E := all_up) 0%nat) PNone 1%nat).
  - vm_compute. reflexivity.
  - intros _. exists 2%Z. vm_compute. reflexivity.
  - vm_compute. reflexivity.
  - vm_compute. reflexivity.
Defined.

Lemma unknown_activity_type_ignored_witness :
  LearnerIncompleteActivityHandler_delete (E := all_up) (demo_request [] [])
    "user" "u7" (start_state (E := all_up) 0%nat)
  = (inr (), HState (E := all_up) 0%nat ∅ [ERenderJson (PDict ∅)]).
Proof.
  apply (unknown_activity_type_ignored (E := all_up) (demo_request [] [])
           "user" "u7" (start_state (E := all_up) 0%nat));
    vm_compute; reflexivity.
Defined.

Lemma anonymous_rating_witness :
  ∃ vals,
    RatingHandler_get (E := all_up) (anonymous_request [] []) "exp0"
      (start_state (E := all_up) 0%nat)
    = (inr (), HState (E := all_up) 1%nat vals
                 [ECall "rating_services.get_overall_ratings_for_exploration"
                    [PStr "exp0"] (inr PNone);
                  ERenderJson (PDict vals)]) ∧
    vals !! "user_rating" = Some PNone ∧
    vals !! "overall_ratings" = Some PNone.
Proof.
  apply (anonymous_rating (E := all_up) (anonymous_request [] []) "exp0"
           (start_state (E := all_up) 0%nat) PNone 1%nat);
    vm_compute; reflexivity.
Defined.

Lemma feedback_anonymous_by_default_witness :
  ∃ r, head (new_events (E := all_up)
               (ReaderFeedbackHandler_post
                  (demo_request [] [("feedback", PStr "nice")]) "exp0")
               (start_state (E := all_up) 0%nat))
       = Some (ECall "feedback_services.create_thread"
                 [PStr "exp0"; PNone; PNone; PStr "Feedback from a learner";
                  PStr "nice"] r).
Proof.
  apply (feedback_anonymous_by_default (E := all_up)
           (demo_request [] [("feedback", PStr "nice")]) "exp0"
           (start_state (E := all_up) 0%nat)).
  vm_compute. reflexivity.
Defined.

Lemma answer_for_unknown_state_witness :
  AnswerSubmittedEventHandler_post (E := all_up)
    (demo_request [] [("old_state_name", PStr "Nowhere")]) "exp0"
    (start_state (E := all_up) 0%nat)
  = (inl KeyError,
     HState (E := all_up) 1%nat ∅
       [ECall "exp_services.get_exploration_by_id" [PStr "exp0"; PNone]
          (inr demo_exploration)]).
Proof.
  apply (answer_for_unknown_state (E := all_up)
           (demo_request [] [("old_state_name", PStr "Nowhere")]) "exp0"
           (start_state (E := all_up) 0%nat) demo_exploration 1%nat
           demo_states "Nowhere");
    vm_compute; reflexivity.
Defined.

Lemma leave_event_lost_when_progress_fails_witness :
  ExplorationMaybeLeaveHandler_post (E := progress_down)
    (demo_request [] [("state_name", PStr "Quiz")]) "exp0"
    (start_state (E := progress_down) 0%nat)
  = (inl (ServiceError "DeadlineExceededError"),
     HState (E := progress_down) 1%nat ∅
       [ECall "learner_progress_services.mark_exploration_as_incomplete"
          [PStr "uid"; PStr "exp0"; PStr "Quiz"; PNone]
          (inl (ServiceError "DeadlineExceededError"))]).
Proof.
  apply (leave_event_lost_when_progress_fails (E := progress_down)
           (demo_request [] [("state_name", PStr "Quiz")]) "exp0"
           (start_state (E := progress_down) 0%nat));
    vm_compute; reflexivity.
Defined.

Lemma anonymous_learner_leaves_no_progress_witness :
  events_all (E := all_up)
    (calls_within ["event_services.CompleteExplorationEventHandler.record"])
    (ExplorationCompleteEventHandler_post
       (anonymous_request [] [("collection_id", PStr "c1")]) "exp0") ∧
  events_all (E := all_up)
    (calls_within ["event_services.MaybeLeaveExplorationEventHandler.record"])
    (ExplorationMaybeLeaveHandler_post
       (anonymous_request [] [("collection_id", PStr "c1")]) "exp0").
Proof.
  apply (anonymous_learner_leaves_no_progress (E := all_up)
           (anonymous_request [] [("collection_id", PStr "c1")]) "exp0").
  vm_compute. reflexivity.
Defined.

Lemma collection_marked_by_what_is_left_witness :
  ∃ v5,
    nth_error
      (new_events (E := all_up)
         (ExplorationCompleteEventHandler_post
            (demo_request [] [("collection_id", PStr "c1")]) "exp0")
         (start_state (E := all_up) 0%nat)) 4
    = Some (ECall "learner_progress_services.mark_collection_as_incomplete"
              [PStr "uid"; PStr "c1"] (inr v5)).
Proof.
  destruct (collection_marked_by_what_is_left (E := all_up)
              (demo_request [] [("collection_id", PStr "c1")]) "exp0"
              (start_state (E := all_up) 0%nat))
    as (v1 & v2 & v3 & left & v5 & Ht).
  - vm_compute. reflexivity.
  - vm_compute. reflexivity.
  - vm_compute. reflexivity.
  - exists PNone. vm_compute. reflexivity.
Defined.

Lemma other_handlers_keep_values_witness :
  keeps_values (E := all_up)
    (handler_body (demo_request [] []) (FlagExplorationHandler_POST "exp0")).
Proof.
  apply (other_handlers_keep_values (E := all_up) (demo_request [] [])
           (FlagExplorationHandler_POST "exp0")).
  reflexivity.
Defined.

Lemma collection_recommendations_skip_system_witness :
  events_all (E := all_up)
    (calls_within [
       "collection_services.get_next_exploration_ids_to_complete_by_user";
       "summary_services.get_displayable_exp_summary_dicts_matching_ids"])
    (RecommendationsHandler_get
       (demo_request [("collection_id", "c1");
                      ("include_system_recommendations", "true");
                      ("stringified_author_recommended_ids", exp2_text)] [])
       "exp0").
Proof.
  apply (collection_recommendations_skip_system (E := all_up)
           (demo_request [("collection_id", "c1");
                          ("include_system_recommendations", "true");
                          ("stringified_author_recommended_ids", exp2_text)] [])
           "exp0");
    vm_compute; reflexivity.
Defined.

Lemma embed_flag_set_before_lookup_witness :
  values (ExplorationPageEmbed_get (E := exploration_missing)
            (demo_request [("iframed", "true")] []) "exp0"
            (start_state (E := exploration_missing) 0%nat)).2 !! "iframed"
  = Some (PBool true).
Proof.
  apply (embed_flag_set_before_lookup (E := exploration_missing)
           (demo_request [("iframed", "true")] []) "exp0"
           (start_state (E := exploration_missing) 0%nat));
    vm_compute; reflexivity.
Defined.

Lemma player_data_describes_fetched_exploration_witness :
  ∃ fetched_version title,
    demo_player_data !! "exploration_version" = Some fetched_version ∧
    demo_player_data !! "exploration_title" = Some title ∧
    demo_player_data !! "meta_name" = Some title ∧
    demo_player_data !! "collection_title" = Some PNone.
Proof.
  destruct (player_data_describes_fetched_exploration (E := all_up)
              "exp0" PNone EmptyString (PBool false)
              (start_state (E := all_up) 0%nat) demo_player_data
              (_get_exploration_player_data (E := all_up) "exp0" PNone
                 EmptyString (PBool false) (start_state (E := all_up) 0%nat)).2)
    as (exploration & version & title & t & _ & _ & _ & Hv & Ht & Hm & _ & _
        & Hcoll).
  - vm_compute. exact eq_refl.
  - exists version, title. split; [exact Hv|]. split; [exact Ht|].
    split; [exact Hm|]. apply Hcoll. reflexivity.
Defined.

Lemma init_needs_job_per_state_witness :
  (size demo_states ≤ length [PNone; demo_job "LDAStringClassifier"; PNone])%nat.
Proof.
  apply (init_needs_job_per_state (E := all_up) (demo_request [] []) "exp0"
           (start_state (E := all_up) 0%nat) demo_exploration PNone demo_states
           [PStr "exp0"; PInt 3; PDict demo_states]
           [PNone; demo_job "LDAStringClassifier"; PNone]).
  - vm_compute. reflexivity.
  - apply (list_elem_of_lookup_2 _ 0%nat). vm_compute. reflexivity.
  - vm_compute. reflexivity.
  - apply (list_elem_of_lookup_2 _ 3%nat). vm_compute. reflexivity.
Defined.

Lemma answer_recorded_normalized_witness :
  ∃ normalized_answer recorded,
    nth_error
      (new_events (E := all_up)
         (AnswerSubmittedEventHandler_post
            (demo_request [] [("old_state_name", PStr "Quiz");
                              ("answer", PStr " 1/2 ")]) "exp0")
         (start_state (E := all_up) 0%nat)) 3
    = Some (ECall "event_services.AnswerSubmissionEventHandler.record"
              [PStr "exp0"; PNone; PStr "Quiz"; PStr "NumericInput";
               PNone; PNone; PNone; PNone; PNone; PDict ∅; normalized_answer]
              (inr recorded)).
Proof.
  destruct (answer_recorded_normalized (E := all_up)
              (demo_request [] [("old_state_name", PStr "Quiz");
                                ("answer", PStr " 1/2 ")]) "exp0"
              (start_state (E := all_up) 0%nat))
    as (exploration & states & old_state & interaction & interaction_id
        & instance & normalized_answer & recorded & _ & _ & _ & _ & Ht).
  - vm_compute. reflexivity.
  - exists PNone, PNone. vm_compute. reflexivity.
Defined.

Lemma exploration_removed_from_incomplete_list_witness :
  ∃ r,
    head (new_events (E := all_up)
            (LearnerIncompleteActivityHandler_delete (demo_request [] [])
               "exploration" "exp0")
            (start_state (E := all_up) 0%nat))
    = Some (ECall "learner_progress_services.remove_exp_from_incomplete_list"
              [PStr "uid"; PStr "exp0"] r).
Proof.
  destruct (exploration_removed_from_incomplete_list (E := all_up)
              (demo_request [] []) "exploration" "exp0") as [_ Hhead].
  - reflexivity.
  - exact (Hhead (start_state (E := all_up) 0%nat)).
Defined.

Lemma author_only_recommendations_witness :
  ∃ r,
    new_events (E := all_up)
      (RecommendationsHandler_get
         (anonymous_request
            [("stringified_author_recommended_ids", exp2_text)] []) "exp0")
      (start_state (E := all_up) 0%nat)
    = ECall "summary_services.get_displayable_exp_summary_dicts_matching_ids"
        [PList [PStr "exp2"]] r
      :: match r with
         | inr summaries =>
             [ERenderJson (PDict (<["summaries" := summaries]> ∅))]
         | inl _ => []
         end.
Proof.
  apply (author_only_recommendations (E := all_up)
           (anonymous_request
              [("stringified_author_recommended_ids", exp2_text)] []) "exp0"
           (start_state (E := all_up) 0%nat) [PStr "exp2"]);
    vm_compute; reflexivity.
Defined.
